(** * Vastu Vision backend: the analysis job lifecycle and its collaborators

    A shallow embedding of the Mongoose models and Express route handlers of
    the backend, with the properties of the analysis lifecycle stated over it.

    Conventions of the embedding.
    - A JavaScript [Number] is embedded on its integer values as [Z]; a
      [Date] is its epoch time in milliseconds, also a [Z].  An absent
      (undefined) path is [None].
    - An [ObjectId] is a number: the route parameters are well-formed ids,
      as [validateObjectId] demands before a handler runs.
    - A Mongoose document is a value of the schema's record.  The in-memory
      document a handler works on is a [Doc]: the values as they were loaded
      and the values as they are now; [save] writes the paths that differ.
    - Every write to the database can be refused by the database.  The
      answers of the database are an input of the model: the field [faults]
      of the world lists, for the successive writes, whether each is refused.
      So are the answers of the blob store and of the mail transport, the
      clock and the random draws.
    - An [async] handler either sends a response or throws.
    - A handler is modelled from the point where the rate limiter, the
      multipart parser and the body validators have let the request
      through; the validators that decide a property below are modelled.
    - The server handles requests and timer callbacks one at a time
      ([Server.step]); where two requests overlap, the two halves of a
      handler, its read and its write, are run separately. *)

From Stdlib Require Import ZArith List String Bool Lia.
From stdpp Require Import base decidable option list gmap strings.

Local Open Scope string_scope.
Local Open Scope Z_scope.

(** ** JavaScript primitives *)

Module Js.

(** Truthiness of a numeric path: [undefined] and [0] are falsy. *)
Definition truthy (x : option Z) : bool :=
  match x with
  | Some n => negb (n =? 0)
  | None => false
  end.

(** [Math.round(d / 1000)] for an integer [d]: the nearest integer, a half
    rounding up. *)
Definition round_div_1000 (d : Z) : Z := (d + 500) / 1000.

(** [Math.ceil(a / b)] for integers, [b] positive. *)
Definition ceil_div (a b : Z) : Z := (a + b - 1) / b.

End Js.

Abbreviation ObjectId := N.
Abbreviation Date := Z.

(** ** models/Analysis.js *)

Module File.
Record t := mk {
  filename : string;
  originalName : string;
  url : string;
  size : option Z;
  type : string;
}.
#[global] Instance eq_dec : EqDecision t.
Proof. solve_decision. Defined.
End File.

Module Dimensions.
Record t := mk {
  length : option Z;
  width : option Z;
  area : option Z;
  unit : string;
}.
#[global] Instance eq_dec : EqDecision t.
Proof. solve_decision. Defined.

Definition with_area (v : option Z) (d : t) : t :=
  mk (length d) (width d) v (unit d).
End Dimensions.

Module RoomDimensions.
Record t := mk {
  length : option Z;
  width : option Z;
  area : option Z;
}.
#[global] Instance eq_dec : EqDecision t.
Proof. solve_decision. Defined.

Definition with_area (v : option Z) (d : t) : t :=
  mk (length d) (width d) v.
End RoomDimensions.

Module Room.
Record t := mk {
  name : string;
  type : string;
  position : option (Z * Z);
  dimensions : RoomDimensions.t;
  direction : option string;
}.
#[global] Instance eq_dec : EqDecision t.
Proof. solve_decision. Defined.

Definition with_dimensions (d : RoomDimensions.t) (r : t) : t :=
  mk (name r) (type r) (position r) d (direction r).
End Room.

Module FloorPlan.
Record t := mk {
  dimensions : Dimensions.t;
  orientation : option string;
  rooms : list Room.t;
}.
#[global] Instance eq_dec : EqDecision t.
Proof. solve_decision. Defined.
End FloorPlan.

(** The result payload.  Of the constant sub-documents of the mock result
    (directional, elemental and per-room breakdowns, remedies) only the
    summary texts are kept; the two computed scores are kept as numbers. *)
Module VastuAnalysis.
Record t := mk {
  overallScore : Z;
  energyFlow_score : option Z;
  summary : option string;
  expertNotes : option string;
}.
#[global] Instance eq_dec : EqDecision t.
Proof. solve_decision. Defined.

(** The schema's default: [overallScore] defaults to 0. *)
Definition default : t := mk 0 None None None.
End VastuAnalysis.

Module Analysis.

Record t := mk {
  user : ObjectId;
  title : string;
  description : option string;
  files : list File.t;
  floorPlan : FloorPlan.t;
  vastuAnalysis : VastuAnalysis.t;
  status : string;
  processingStartedAt : option Date;
  completedAt : option Date;
  processingTime : option Z;
  isPublic : bool;
  tags : list string;
  views : Z;
  likes : Z;
  shares : Z;
}.
#[global] Instance eq_dec : EqDecision t.
Proof. solve_decision. Defined.

(** *** Assignments to one path of a document *)

Definition set_title (v : string) (a : t) : t :=
  mk (user a) v (description a) (files a) (floorPlan a) (vastuAnalysis a)
     (status a) (processingStartedAt a) (completedAt a) (processingTime a)
     (isPublic a) (tags a) (views a) (likes a) (shares a).

Definition set_description (v : option string) (a : t) : t :=
  mk (user a) (title a) v (files a) (floorPlan a) (vastuAnalysis a)
     (status a) (processingStartedAt a) (completedAt a) (processingTime a)
     (isPublic a) (tags a) (views a) (likes a) (shares a).

Definition set_floorPlan (v : FloorPlan.t) (a : t) : t :=
  mk (user a) (title a) (description a) (files a) v (vastuAnalysis a)
     (status a) (processingStartedAt a) (completedAt a) (processingTime a)
     (isPublic a) (tags a) (views a) (likes a) (shares a).

Definition set_vastuAnalysis (v : VastuAnalysis.t) (a : t) : t :=
  mk (user a) (title a) (description a) (files a) (floorPlan a) v
     (status a) (processingStartedAt a) (completedAt a) (processingTime a)
     (isPublic a) (tags a) (views a) (likes a) (shares a).

Definition set_status (v : string) (a : t) : t :=
  mk (user a) (title a) (description a) (files a) (floorPlan a)
     (vastuAnalysis a) v (processingStartedAt a) (completedAt a)
     (processingTime a) (isPublic a) (tags a) (views a) (likes a)
     (shares a).

Definition set_processingStartedAt (v : option Date) (a : t) : t :=
  mk (user a) (title a) (description a) (files a) (floorPlan a)
     (vastuAnalysis a) (status a) v (completedAt a) (processingTime a)
     (isPublic a) (tags a) (views a) (likes a) (shares a).

Definition set_completedAt (v : option Date) (a : t) : t :=
  mk (user a) (title a) (description a) (files a) (floorPlan a)
     (vastuAnalysis a) (status a) (processingStartedAt a) v
     (processingTime a) (isPublic a) (tags a) (views a) (likes a)
     (shares a).

Definition set_processingTime (v : option Z) (a : t) : t :=
  mk (user a) (title a) (description a) (files a) (floorPlan a)
     (vastuAnalysis a) (status a) (processingStartedAt a) (completedAt a) v
     (isPublic a) (tags a) (views a) (likes a) (shares a).

Definition set_isPublic (v : bool) (a : t) : t :=
  mk (user a) (title a) (description a) (files a) (floorPlan a)
     (vastuAnalysis a) (status a) (processingStartedAt a) (completedAt a)
     (processingTime a) v (tags a) (views a) (likes a) (shares a).

Definition set_tags (v : list string) (a : t) : t :=
  mk (user a) (title a) (description a) (files a) (floorPlan a)
     (vastuAnalysis a) (status a) (processingStartedAt a) (completedAt a)
     (processingTime a) (isPublic a) v (views a) (likes a) (shares a).

Definition set_views (v : Z) (a : t) : t :=
  mk (user a) (title a) (description a) (files a) (floorPlan a)
     (vastuAnalysis a) (status a) (processingStartedAt a) (completedAt a)
     (processingTime a) (isPublic a) (tags a) v (likes a) (shares a).

Definition set_likes (v : Z) (a : t) : t :=
  mk (user a) (title a) (description a) (files a) (floorPlan a)
     (vastuAnalysis a) (status a) (processingStartedAt a) (completedAt a)
     (processingTime a) (isPublic a) (tags a) (views a) v (shares a).

Definition set_shares (v : Z) (a : t) : t :=
  mk (user a) (title a) (description a) (files a) (floorPlan a)
     (vastuAnalysis a) (status a) (processingStartedAt a) (completedAt a)
     (processingTime a) (isPublic a) (tags a) (views a) (likes a) v.

(** *** Schema validators *)

Definition statusEnum : list string :=
  ["pending"; "processing"; "completed"; "failed"].

Definition orientationEnum : list string :=
  ["north"; "south"; "east"; "west";
   "northeast"; "northwest"; "southeast"; "southwest"].

Definition roomTypeEnum : list string :=
  ["bedroom"; "living-room"; "kitchen"; "bathroom"; "dining-room";
   "study"; "puja-room"; "balcony"; "other"].

Definition roomDirectionEnum : list string :=
  orientationEnum ++ ["center"].

Definition unitEnum : list string := ["sqft"; "sqm"].

Definition inEnum (e : list string) (s : string) : bool :=
  bool_decide (s ∈ e).

(** [required] on a string path refuses the empty string too. *)
Definition requiredString (s : string) : bool :=
  negb (bool_decide (s = "")).

Definition maxlength (n : nat) (s : string) : bool :=
  bool_decide (String.length s ≤ n)%nat.

Definition optionally {A} (p : A -> bool) (x : option A) : bool :=
  match x with
  | Some v => p v
  | None => true
  end.

Definition inRange (lo hi x : Z) : bool := (lo <=? x) && (x <=? hi).

Definition validFile (f : File.t) : bool :=
  requiredString (File.filename f) && requiredString (File.originalName f)
  && requiredString (File.url f) && bool_decide (is_Some (File.size f))
  && requiredString (File.type f).

Definition validRoom (r : Room.t) : bool :=
  requiredString (Room.name r)
  && inEnum roomTypeEnum (Room.type r)
  && optionally (inEnum roomDirectionEnum) (Room.direction r).

Definition validFloorPlan (fp : FloorPlan.t) : bool :=
  inEnum unitEnum (Dimensions.unit (FloorPlan.dimensions fp))
  && match FloorPlan.orientation fp with
     | Some o => inEnum orientationEnum o
     | None => false
     end
  && forallb validRoom (FloorPlan.rooms fp).

Definition validVastuAnalysis (v : VastuAnalysis.t) : bool :=
  inRange 0 100 (VastuAnalysis.overallScore v)
  && optionally (inRange 0 100) (VastuAnalysis.energyFlow_score v).

(** What [validate()] accepts: every validator of the schema passes. *)
Definition validate (a : t) : bool :=
  requiredString (title a) && maxlength 100 (title a)
  && optionally (maxlength 500) (description a)
  && forallb validFile (files a)
  && validFloorPlan (floorPlan a)
  && validVastuAnalysis (vastuAnalysis a)
  && inEnum statusEnum (status a).

(** *** Virtuals *)

Definition processingDuration (a : t) : option Z :=
  match processingStartedAt a, completedAt a with
  | Some s, Some c => Some (Js.round_div_1000 (c - s))
  | _, _ => None
  end.

Definition fileCount (a : t) : nat := List.length (files a).
Definition roomCount (a : t) : nat := List.length (FloorPlan.rooms (floorPlan a)).

(** *** The pre-save hook: areas are computed from length and width *)

Definition product (x y : option Z) : option Z :=
  match x, y with
  | Some l, Some w => Some (l * w)
  | _, _ => None
  end.

Definition roomArea (r : Room.t) : Room.t :=
  let d := Room.dimensions r in
  if Js.truthy (RoomDimensions.length d) && Js.truthy (RoomDimensions.width d)
  then Room.with_dimensions
         (RoomDimensions.with_area
            (product (RoomDimensions.length d) (RoomDimensions.width d)) d) r
  else r.

Definition planArea (d : Dimensions.t) : Dimensions.t :=
  if Js.truthy (Dimensions.length d) && Js.truthy (Dimensions.width d)
  then Dimensions.with_area (product (Dimensions.length d) (Dimensions.width d)) d
  else d.

(** Are both sides given, and not zero? *)
Definition bothGiven (l w : option Z) : bool := Js.truthy l && Js.truthy w.

Definition preSave (a : t) : t :=
  let fp := floorPlan a in
  set_floorPlan
    (FloorPlan.mk (planArea (FloorPlan.dimensions fp))
                  (FloorPlan.orientation fp)
                  (map roomArea (FloorPlan.rooms fp)))
    a.

End Analysis.

(** ** The database, the timer queue and the console *)

Module Db.

(** A thrown JavaScript error: its [name] and [message]. *)
Record Error := mkError { name : string; message : string }.

Definition ValidationError : Error :=
  mkError "ValidationError" "Analysis validation failed".
Definition MongoError : Error :=
  mkError "MongoError" "write refused".
Definition DocumentNotFoundError : Error :=
  mkError "DocumentNotFoundError" "No document found for query".

(** An Analysis document in memory: [this] holds the current values of its
    paths, [loaded] the values the database is known to hold. *)
Record Doc := mkDoc {
  _id : ObjectId;
  loaded : Analysis.t;
  this : Analysis.t;
}.
#[global] Instance Doc_eq_dec : EqDecision Doc.
Proof. solve_decision. Defined.

Definition assign (f : Analysis.t -> Analysis.t) (d : Doc) : Doc :=
  mkDoc (_id d) (loaded d) (f (this d)).

Record World := mkWorld {
  analyses : gmap ObjectId Analysis.t;  (* the Analyses collection *)
  nextId : ObjectId;                    (* the next fresh ObjectId *)
  timers : list Doc;                    (* callbacks given to setTimeout,
                                           each with the document it closes over *)
  faults : list bool;                   (* for the successive writes:
                                           [true] when the database refuses *)
  cloudinary : gset string;             (* public ids held by the blob store *)
  console : list string;                (* lines of console.error *)
}.

Definition set_analyses (m : gmap ObjectId Analysis.t) (w : World) : World :=
  mkWorld m (nextId w) (timers w) (faults w) (cloudinary w) (console w).
Definition set_nextId (n : ObjectId) (w : World) : World :=
  mkWorld (analyses w) n (timers w) (faults w) (cloudinary w) (console w).
Definition set_timers (t : list Doc) (w : World) : World :=
  mkWorld (analyses w) (nextId w) t (faults w) (cloudinary w) (console w).
Definition set_faults (f : list bool) (w : World) : World :=
  mkWorld (analyses w) (nextId w) (timers w) f (cloudinary w) (console w).
Definition set_cloudinary (c : gset string) (w : World) : World :=
  mkWorld (analyses w) (nextId w) (timers w) (faults w) c (console w).
Definition console_error (line : string) (w : World) : World :=
  mkWorld (analyses w) (nextId w) (timers w) (faults w) (cloudinary w)
          (console w ++ [line]).

(** The database answers one write: refused or accepted. *)
Definition refused (w : World) : bool :=
  match faults w with
  | b :: _ => b
  | [] => false
  end.
Definition answered (w : World) : World := set_faults (tail (faults w)) w.

(** [Model.findById]. *)
Definition findById (id : ObjectId) (w : World) : option Doc :=
  match analyses w !! id with
  | Some a => Some (mkDoc id a a)
  | None => None
  end.

(** The update [save] sends: the paths whose value differs from the loaded
    one are set, the others keep what the database holds. *)
Definition path {A} `{EqDecision A} (was now stored : A) : A :=
  if decide (now = was) then stored else now.

Definition written (was now stored : Analysis.t) : Analysis.t :=
  Analysis.mk
    (path (Analysis.user was) (Analysis.user now) (Analysis.user stored))
    (path (Analysis.title was) (Analysis.title now) (Analysis.title stored))
    (path (Analysis.description was) (Analysis.description now)
          (Analysis.description stored))
    (path (Analysis.files was) (Analysis.files now) (Analysis.files stored))
    (path (Analysis.floorPlan was) (Analysis.floorPlan now)
          (Analysis.floorPlan stored))
    (path (Analysis.vastuAnalysis was) (Analysis.vastuAnalysis now)
          (Analysis.vastuAnalysis stored))
    (path (Analysis.status was) (Analysis.status now) (Analysis.status stored))
    (path (Analysis.processingStartedAt was) (Analysis.processingStartedAt now)
          (Analysis.processingStartedAt stored))
    (path (Analysis.completedAt was) (Analysis.completedAt now)
          (Analysis.completedAt stored))
    (path (Analysis.processingTime was) (Analysis.processingTime now)
          (Analysis.processingTime stored))
    (path (Analysis.isPublic was) (Analysis.isPublic now)
          (Analysis.isPublic stored))
    (path (Analysis.tags was) (Analysis.tags now) (Analysis.tags stored))
    (path (Analysis.views was) (Analysis.views now) (Analysis.views stored))
    (path (Analysis.likes was) (Analysis.likes now) (Analysis.likes stored))
    (path (Analysis.shares was) (Analysis.shares now) (Analysis.shares stored)).

(** What a method of a document leaves behind: the document as mutated, the
    world, and the error it rejected with, if any. *)
Definition Method : Type := Doc -> World -> Doc * World * option Error.

(** [doc.save({ validateBeforeSave })] on a document that was loaded from the
    database.  Validation runs first, then the pre-save hook; with no path
    modified there is nothing to write. *)
Definition save (validateBeforeSave : bool) : Method := fun d w =>
  if validateBeforeSave && negb (Analysis.validate (this d))
  then (d, w, Some ValidationError)
  else
    let d := assign Analysis.preSave d in
    if decide (this d = loaded d) then (d, w, None)
    else if refused w then (d, answered w, Some MongoError)
    else
      match analyses w !! _id d with
      | None => (d, answered w, Some DocumentNotFoundError)
      | Some stored =>
          (mkDoc (_id d) (this d) (this d),
           set_analyses
             (<[_id d := written (loaded d) (this d) stored]> (analyses w))
             (answered w),
           None)
      end.

(** *** The four ways a save ends *)
Inductive SaveResult (v : bool) (d : Doc) (w : World)
  : Doc -> World -> option Error -> Prop :=
| SaveInvalid :
    v = true -> Analysis.validate (this d) = false ->
    SaveResult v d w d w (Some ValidationError)
| SaveNothing :
    (v = true -> Analysis.validate (this d) = true) ->
    Analysis.preSave (this d) = loaded d ->
    SaveResult v d w (assign Analysis.preSave d) w None
| SaveFailed e :
    (v = true -> Analysis.validate (this d) = true) ->
    Analysis.preSave (this d) <> loaded d ->
    refused w = true \/ analyses w !! _id d = None ->
    SaveResult v d w (assign Analysis.preSave d) (answered w) (Some e)
| SaveWritten stored :
    (v = true -> Analysis.validate (this d) = true) ->
    Analysis.preSave (this d) <> loaded d ->
    refused w = false ->
    analyses w !! _id d = Some stored ->
    SaveResult v d w
      (mkDoc (_id d) (Analysis.preSave (this d)) (Analysis.preSave (this d)))
      (set_analyses
         (<[_id d := written (loaded d) (Analysis.preSave (this d)) stored]>
            (analyses w))
         (answered w))
      None.

(** The floor plan with its areas computed, as the pre-save hook leaves it. *)
Definition withAreas (fp : FloorPlan.t) : FloorPlan.t :=
  FloorPlan.mk (Analysis.planArea (FloorPlan.dimensions fp))
               (FloorPlan.orientation fp)
               (map Analysis.roomArea (FloorPlan.rooms fp)).

(** [Model.create(fields)]: a new document is validated, hooked and
    inserted under a fresh id. *)
Definition create (fields : Analysis.t) (w : World)
  : World * (Doc + Error) :=
  if negb (Analysis.validate fields) then (w, inr ValidationError)
  else
    let a := Analysis.preSave fields in
    if refused w then (answered w, inr MongoError)
    else
      let id := nextId w in
      (set_nextId (N.succ id)
         (set_analyses (<[id := a]> (analyses w)) (answered w)),
       inl (mkDoc id a a)).

(** [Model.findByIdAndDelete]. *)
Definition findByIdAndDelete (id : ObjectId) (w : World)
  : World * option Error :=
  if refused w then (answered w, Some MongoError)
  else (set_analyses (delete id (analyses w)) (answered w), None).

End Db.

(** ** models/Analysis.js: instance methods *)

Module AnalysisMethods.
Import Db.

(** [updateStatus(status)], called at time [now]. *)
Definition updateStatus (status : string) (now : Date) : Method := fun d w =>
  let d := assign (Analysis.set_status status) d in
  let d :=
    if bool_decide (status = "processing")
    then assign (Analysis.set_processingStartedAt (Some now)) d
    else if bool_decide (status = "completed")
    then
      let d := assign (Analysis.set_completedAt (Some now)) d in
      match Analysis.processingStartedAt (this d) with
      | Some started =>
          assign (Analysis.set_processingTime
                    (Some (Js.round_div_1000 (now - started)))) d
      | None => d
      end
    else d in
  save true d w.

Definition incrementViews : Method := fun d w =>
  save false (assign (fun a => Analysis.set_views (Analysis.views a + 1) a) d) w.

Definition like : Method := fun d w =>
  save false (assign (fun a => Analysis.set_likes (Analysis.likes a + 1) a) d) w.

Definition share : Method := fun d w =>
  save false (assign (fun a => Analysis.set_shares (Analysis.shares a + 1) a) d) w.

(** *** What the methods assign *)

(** The analysis [updateStatus('processing')] leaves, called at [now]. *)
Definition processing (now : Date) (a : Analysis.t) : Analysis.t :=
  Analysis.set_processingStartedAt (Some now) (Analysis.set_status "processing" a).

(** The document [updateStatus('completed')] saves. *)
Definition completedDoc (now : Date) (d : Doc) : Doc :=
  let d := assign (Analysis.set_completedAt (Some now))
                  (assign (Analysis.set_status "completed") d) in
  match Analysis.processingStartedAt (this d) with
  | Some started =>
      assign (Analysis.set_processingTime
                (Some (Js.round_div_1000 (now - started)))) d
  | None => d
  end.

(** The analysis [incrementViews] leaves to store. *)
Definition viewed (a : Analysis.t) : Analysis.t :=
  Analysis.preSave (Analysis.set_views (Analysis.views a + 1) a).
Definition liked (a : Analysis.t) : Analysis.t :=
  Analysis.preSave (Analysis.set_likes (Analysis.likes a + 1) a).
Definition shared (a : Analysis.t) : Analysis.t :=
  Analysis.preSave (Analysis.set_shares (Analysis.shares a + 1) a).

End AnalysisMethods.

(** ** middleware/auth.js *)

Module Auth.

(** The account a token resolves to.  [isPremium] is what the method
    [user.isPremium()] of the User model answers. *)
Record User := mkUser {
  id : ObjectId;
  isActive : bool;
  isPremium : bool;
  role : string;
}.

(** What the request carries: no token, a token [jwt.verify] refuses, or a
    token for an account id, with what [User.findById] finds for it. *)
Inductive Credentials :=
| NoToken
| InvalidToken
| Token (account : option User).

Record Response := mkResponse {
  statusCode : Z;
  success : bool;
  message : string;
}.

(** [protect]: the resolved user, or the response that ends the request. *)
Definition protect (c : Credentials) : Response + User :=
  match c with
  | NoToken => inl (mkResponse 401 false "Access denied. No token provided.")
  | InvalidToken => inl (mkResponse 401 false "Invalid token.")
  | Token None =>
      inl (mkResponse 401 false "Token is valid but user no longer exists.")
  | Token (Some user) =>
      if negb (isActive user)
      then inl (mkResponse 401 false
                  "Account is deactivated. Please contact support.")
      else inr user
  end.

(** [optionalAuth]: [req.user], when the token resolves to an active account. *)
Definition optionalAuth (c : Credentials) : option User :=
  match c with
  | Token (Some user) => if isActive user then Some user else None
  | _ => None
  end.

(** [requirePremium], after [protect] has set [req.user]. *)
Definition requirePremium (user : User) : option Response :=
  if negb (isPremium user)
  then Some (mkResponse 403 false
               "Premium subscription required to access this feature.")
  else None.

End Auth.

(** ** routes/analysisRoutes.js *)

Module AnalysisRoutes.
Import Db AnalysisMethods.

(** The [data] member of a JSON response. *)
Inductive Data :=
| NoData
| AnalysisData (analysis : Doc)
| LikesData (likes : Z)
| SharesData (shares : Z).

Record Response := mkResponse {
  statusCode : Z;
  success : bool;
  message : string;
  data : Data;
}.

(** How a handler ends: a response was sent, or the handler threw. *)
Inductive Outcome :=
| Sent (res : Response)
| Thrown (e : Error).

Definition deny (r : Auth.Response) : Outcome :=
  Sent (mkResponse (Auth.statusCode r) (Auth.success r) (Auth.message r) NoData).
Definition fail_with (code : Z) (msg : string) : Outcome :=
  Sent (mkResponse code false msg NoData).
Definition ok_with (code : Z) (msg : string) (d : Data) : Outcome :=
  Sent (mkResponse code true msg d).

(** [analysis.user.toString() !== req.user.id] *)
Definition otherUser (a : Analysis.t) (user : Auth.User) : bool :=
  negb (bool_decide (Analysis.user a = Auth.id user)).

(** [!req.user || analysis.user._id.toString() !== req.user.id] *)
Definition notOwner (a : Analysis.t) (reqUser : option Auth.User) : bool :=
  match reqUser with
  | None => true
  | Some user => otherUser a user
  end.

(** *** GET /api/analysis/:id *)
Definition getById (c : Auth.Credentials) (id : ObjectId) (w : World)
  : Outcome * World :=
  let reqUser := Auth.optionalAuth c in
  match findById id w with
  | None => (fail_with 404 "Analysis not found", w)
  | Some analysis =>
      if negb (Analysis.isPublic (this analysis))
         && notOwner (this analysis) reqUser
      then (fail_with 403 "Access denied", w)
      else if notOwner (this analysis) reqUser
      then
        match incrementViews analysis w with
        | (_, w, Some e) => (Thrown e, w)
        | (analysis, w, None) => (ok_with 200 "" (AnalysisData analysis), w)
        end
      else (ok_with 200 "" (AnalysisData analysis), w)
  end.

(** *** POST /api/analysis *)

Record CreateBody := mkCreateBody {
  c_title : string;                    (* absent: the empty string *)
  c_description : option string;
  c_floorPlan : FloorPlan.t;
  c_isPublic : option bool;
  c_tags : option (list string);
}.

(** [isLength({ min, max })] *)
Definition isLength (lo hi : nat) (s : string) : bool :=
  bool_decide (lo ≤ String.length s ≤ hi)%nat.

(** [validateAnalysis] of middleware/validation.js (titles taken as
    already trimmed). *)
Definition validateAnalysis (b : CreateBody) : bool :=
  let dims := FloorPlan.dimensions (c_floorPlan b) in
  isLength 3 100 (c_title b)
  && Analysis.optionally (isLength 0 500) (c_description b)
  && match FloorPlan.orientation (c_floorPlan b) with
     | Some o => Analysis.inEnum Analysis.orientationEnum o
     | None => false
     end
  && Analysis.optionally (fun x => 1 <=? x) (Dimensions.length dims)
  && Analysis.optionally (fun x => 1 <=? x) (Dimensions.width dims)
  && Analysis.inEnum Analysis.unitEnum (Dimensions.unit dims).

Definition newAnalysis (user : ObjectId) (b : CreateBody) : Analysis.t :=
  Analysis.mk user (c_title b) (c_description b) [] (c_floorPlan b)
              VastuAnalysis.default "pending" None None None
              (default false (c_isPublic b)) (default [] (c_tags b)) 0 0 0.

Definition createAnalysis (c : Auth.Credentials) (b : CreateBody) (w : World)
  : Outcome * World :=
  match Auth.protect c with
  | inl r => (deny r, w)
  | inr user =>
      if negb (validateAnalysis b) then (fail_with 400 "Validation failed", w)
      else
        match create (newAnalysis (Auth.id user) b) w with
        | (w, inr e) => (Thrown e, w)
        | (w, inl analysis) =>
            (ok_with 201 "Analysis created successfully" (AnalysisData analysis), w)
        end
  end.

(** *** PUT /api/analysis/:id *)

Record UpdateBody := mkUpdateBody {
  u_title : option string;
  u_description : option string;
  u_isPublic : option bool;
  u_tags : option (list string);
}.

Definition applyUpdate (b : UpdateBody) (a : Analysis.t) : Analysis.t :=
  let a := match u_title b with
           | Some t => if bool_decide (t = "") then a else Analysis.set_title t a
           | None => a
           end in
  let a := match u_description b with
           | Some d => Analysis.set_description (Some d) a
           | None => a
           end in
  let a := match u_isPublic b with
           | Some p => Analysis.set_isPublic p a
           | None => a
           end in
  match u_tags b with
  | Some t => Analysis.set_tags t a
  | None => a
  end.

Definition updateAnalysis (c : Auth.Credentials) (id : ObjectId)
    (b : UpdateBody) (w : World) : Outcome * World :=
  match Auth.protect c with
  | inl r => (deny r, w)
  | inr user =>
      match findById id w with
      | None => (fail_with 404 "Analysis not found", w)
      | Some analysis =>
          if otherUser (this analysis) user
          then (fail_with 403 "Access denied", w)
          else
            match save true (assign (applyUpdate b) analysis) w with
            | (_, w, Some e) => (Thrown e, w)
            | (analysis, w, None) =>
                (ok_with 200 "Analysis updated successfully"
                         (AnalysisData analysis), w)
            end
      end
  end.

(** *** DELETE /api/analysis/:id *)
Definition deleteAnalysis (c : Auth.Credentials) (id : ObjectId) (w : World)
  : Outcome * World :=
  match Auth.protect c with
  | inl r => (deny r, w)
  | inr user =>
      match findById id w with
      | None => (fail_with 404 "Analysis not found", w)
      | Some analysis =>
          if otherUser (this analysis) user
          then (fail_with 403 "Access denied", w)
          else
            match findByIdAndDelete id w with
            | (w, Some e) => (Thrown e, w)
            | (w, None) =>
                (ok_with 200 "Analysis deleted successfully" NoData, w)
            end
      end
  end.

(** *** POST /api/analysis/:id/start *)

(** Up to the answer of [Analysis.findById]: the response that ends the
    request, or the document found pending. *)
Definition startLookup (c : Auth.Credentials) (id : ObjectId) (w : World)
  : Outcome + Doc :=
  match Auth.protect c with
  | inl r => inl (deny r)
  | inr user =>
      match Auth.requirePremium user with
      | Some r => inl (deny r)
      | None =>
          match findById id w with
          | None => inl (fail_with 404 "Analysis not found")
          | Some analysis =>
              if otherUser (this analysis) user
              then inl (fail_with 403 "Access denied")
              else if negb (bool_decide (Analysis.status (this analysis) = "pending"))
              then inl (fail_with 400
                          "Analysis is already being processed or completed")
              else inr analysis
          end
      end
  end.

(** [setTimeout(callback, 5000)]: the callback waits in the timer queue
    with the document it closes over. *)
Definition setTimeout (analysis : Doc) (w : World) : World :=
  set_timers (timers w ++ [analysis]) w.

(** From [updateStatus('processing')] to the response. *)
Definition startProcessing (now : Date) (analysis : Doc) (w : World)
  : Outcome * World :=
  match updateStatus "processing" now analysis w with
  | (_, w, Some e) => (Thrown e, w)
  | (analysis, w, None) =>
      (ok_with 200 "Analysis processing started" (AnalysisData analysis),
       setTimeout analysis w)
  end.

Definition start (c : Auth.Credentials) (id : ObjectId) (now : Date)
    (w : World) : Outcome * World :=
  match startLookup c id w with
  | inl res => (res, w)
  | inr analysis => startProcessing now analysis w
  end.

(** The simulated result.  [r1] and [r2] are the two random draws
    [Math.floor(Math.random() * 40)] and [Math.floor(Math.random() * 30)]. *)
Definition mockResults (r1 r2 : Z) : VastuAnalysis.t :=
  VastuAnalysis.mk
    (r1 mod 40 + 60)
    (Some (r2 mod 30 + 70))
    (Some ("Overall good Vastu compliance with some areas needing attention. "
         ++ "Focus on kitchen and bathroom placement for optimal energy flow."))
    (Some "Consider consulting a Vastu expert for detailed recommendations.").

(** The callback of [setTimeout], run at time [now] on the document
    [analysis] of its closure. *)
Definition onTimeout (r1 r2 : Z) (now : Date) (analysis : Doc) (w : World)
  : World :=
  let analysis := assign (Analysis.set_vastuAnalysis (mockResults r1 r2)) analysis in
  match updateStatus "completed" now analysis w with
  | (_, w, None) => w
  | (analysis, w, Some _) =>
      let w := console_error "Analysis processing error:" w in
      match updateStatus "failed" now analysis w with
      | (_, w, _) => w
      end
  end.

(** *** POST /api/analysis/:id/like and /share *)

Definition likeLookup (c : Auth.Credentials) (id : ObjectId) (w : World)
  : Outcome + Doc :=
  match Auth.protect c with
  | inl r => inl (deny r)
  | inr _ =>
      match findById id w with
      | None => inl (fail_with 404 "Analysis not found")
      | Some analysis =>
          if negb (Analysis.isPublic (this analysis))
          then inl (fail_with 403 "Cannot like private analysis")
          else inr analysis
      end
  end.

Definition likeSave (analysis : Doc) (w : World) : Outcome * World :=
  match like analysis w with
  | (_, w, Some e) => (Thrown e, w)
  | (analysis, w, None) =>
      (ok_with 200 "Analysis liked successfully"
               (LikesData (Analysis.likes (this analysis))), w)
  end.

Definition likeAnalysis (c : Auth.Credentials) (id : ObjectId) (w : World)
  : Outcome * World :=
  match likeLookup c id w with
  | inl res => (res, w)
  | inr analysis => likeSave analysis w
  end.

Definition shareLookup (c : Auth.Credentials) (id : ObjectId) (w : World)
  : Outcome + Doc :=
  match Auth.protect c with
  | inl r => inl (deny r)
  | inr _ =>
      match findById id w with
      | None => inl (fail_with 404 "Analysis not found")
      | Some analysis =>
          if negb (Analysis.isPublic (this analysis))
          then inl (fail_with 403 "Cannot share private analysis")
          else inr analysis
      end
  end.

Definition shareSave (analysis : Doc) (w : World) : Outcome * World :=
  match share analysis w with
  | (_, w, Some e) => (Thrown e, w)
  | (analysis, w, None) =>
      (ok_with 200 "Analysis shared successfully"
               (SharesData (Analysis.shares (this analysis))), w)
  end.

Definition shareAnalysis (c : Auth.Credentials) (id : ObjectId) (w : World)
  : Outcome * World :=
  match shareLookup c id w with
  | inl res => (res, w)
  | inr analysis => shareSave analysis w
  end.

End AnalysisRoutes.

(** ** routes/uploadRoutes.js *)

Module UploadRoutes.
Import Db.

(** What Cloudinary answers to an upload. *)
Record CloudinaryResult := mkResult {
  public_id : string;
  secure_url : string;
  bytes : Z;
}.

(** A file of the multipart request as multer hands it over, together with
    the answer its upload will get: [None] when the image optimisation or
    the upload throws. *)
Record UploadedFile := mkFile {
  originalname : string;
  mimetype : string;
  answer : option CloudinaryResult;
}.

Record Request := mkRequest {
  title : option string;
  description : option string;
  files : list UploadedFile;
  destroys : list bool;    (* for the successive calls of
                              [cloudinary.uploader.destroy]: [true] when it throws *)
  today : string;          (* [new Date().toLocaleDateString()] *)
}.

(** [uploadToCloudinary]: any failure is logged and rethrown as
    'File upload failed'. *)
Definition uploadToCloudinary (file : UploadedFile) (w : World)
  : World * (CloudinaryResult + Error) :=
  match answer file with
  | Some result =>
      (set_cloudinary ({[public_id result]} ∪ cloudinary w) w, inl result)
  | None =>
      (console_error "Cloudinary upload error:" w,
       inr (mkError "Error" "File upload failed"))
  end.

Definition fileEntry (file : UploadedFile) (result : CloudinaryResult) : File.t :=
  File.mk (public_id result) (originalname file) (secure_url result)
          (Some (bytes result)) (mimetype file).

(** The loop [for (const file of req.files)]: the files uploaded so far, and
    the error that ended the loop early, if any. *)
Fixpoint uploadEach (files : list UploadedFile) (uploadedFiles : list File.t)
    (w : World) : World * list File.t * option Error :=
  match files with
  | [] => (w, uploadedFiles, None)
  | file :: rest =>
      match uploadToCloudinary file w with
      | (w, inr e) => (w, uploadedFiles, Some e)
      | (w, inl result) =>
          uploadEach rest (uploadedFiles ++ [fileEntry file result]) w
      end
  end.

(** The clean-up loop of the [catch] block: every uploaded file is
    destroyed; a destroy that throws is logged and the loop goes on. *)
Fixpoint cleanup (uploadedFiles : list File.t) (destroys : list bool)
    (w : World) : World :=
  match uploadedFiles with
  | [] => w
  | file :: rest =>
      match destroys with
      | true :: ds =>
          cleanup rest ds (console_error "Failed to cleanup file:" w)
      | _ =>
          cleanup rest (tail destroys)
                  (set_cloudinary (cloudinary w ∖ {[File.filename file]}) w)
      end
  end.

(** [validateFileUpload] of middleware/validation.js. *)
Definition validateFileUpload (req : Request) : bool :=
  Analysis.optionally (AnalysisRoutes.isLength 3 100) (title req)
  && Analysis.optionally (AnalysisRoutes.isLength 0 500) (description req).

(** [title || ...]: an empty title counts as absent. *)
Definition titleOr (t : option string) (fallback : string) : string :=
  match t with
  | Some s => if bool_decide (s = "") then fallback else s
  | None => fallback
  end.

Definition newAnalysis (user : ObjectId) (req : Request)
    (uploadedFiles : list File.t) : Analysis.t :=
  Analysis.mk user
    (titleOr (title req) ("Analysis " ++ today req))
    (Some (titleOr (description req) ""))
    uploadedFiles
    (FloorPlan.mk (Dimensions.mk None None None "sqft") None [])
    VastuAnalysis.default "pending" None None None false [] 0 0 0.

(** *** POST /api/upload/files *)
Definition uploadFiles (c : Auth.Credentials) (req : Request) (w : World)
  : AnalysisRoutes.Outcome * World :=
  match Auth.protect c with
  | inl r => (AnalysisRoutes.deny r, w)
  | inr user =>
      if negb (validateFileUpload req)
      then (AnalysisRoutes.fail_with 400 "Validation failed", w)
      else if bool_decide (files req = [])
      then (AnalysisRoutes.fail_with 400 "No files uploaded", w)
      else
        match uploadEach (files req) [] w with
        | (w, uploadedFiles, Some e) =>
            (AnalysisRoutes.Thrown e, cleanup uploadedFiles (destroys req) w)
        | (w, uploadedFiles, None) =>
            match create (newAnalysis (Auth.id user) req uploadedFiles) w with
            | (w, inr e) =>
                (AnalysisRoutes.Thrown e, cleanup uploadedFiles (destroys req) w)
            | (w, inl analysis) =>
                (AnalysisRoutes.ok_with 201 "Files uploaded successfully"
                   (AnalysisRoutes.AnalysisData analysis), w)
            end
        end
  end.

(** *** What an aborted upload leaves *)

(** The files uploaded before the first upload that fails. *)
Fixpoint uploadedBefore (files : list UploadedFile) : list File.t :=
  match files with
  | [] => []
  | file :: rest =>
      match answer file with
      | Some result => fileEntry file result :: uploadedBefore rest
      | None => []
      end
  end.

Definition allAnswered (files : list UploadedFile) : bool :=
  forallb (fun file => bool_decide (is_Some (answer file))) files.

Definition uploadFailed : Error := mkError "Error" "File upload failed".

(** What is left after an upload that was aborted: no analysis was
    created, and every file uploaded in the batch whose destroy call did
    not throw is gone from the blob store. *)
Definition cleanedUp (req : Request) (w w' : World) : Prop :=
  analyses w' = analyses w /\ nextId w' = nextId w
  /\ forall i f,
       uploadedBefore (files req) !! i = Some f ->
       destroys req !! i <> Some true ->
       File.filename f ∉ cloudinary w'.

End UploadRoutes.

(** ** routes/advancedRoutes.js: the route that saves an analysis *)

Module AdvancedRoutes.
Import Db AnalysisRoutes.

(** The document of [new Analysis({ user, analysisType, ..., processingTime })]:
    the paths the schema does not declare are dropped, which leaves the
    user and the processing time; there is no title and no floor plan. *)
Definition predictionRecord (user : ObjectId) (processingTime : option Z)
  : Analysis.t :=
  Analysis.mk user "" None []
    (FloorPlan.mk (Dimensions.mk None None None "sqft") None [])
    VastuAnalysis.default "pending" None None processingTime false [] 0 0 0.

(** *** POST /api/advanced/ml-prediction.  [processingTime] is what the
    prediction service reports. *)
Definition mlPrediction (c : Auth.Credentials) (processingTime : option Z)
    (w : World) : Outcome * World :=
  match Auth.protect c with
  | inl r => (deny r, w)
  | inr user =>
      match Auth.requirePremium user with
      | Some r => (deny r, w)
      | None =>
          match create (predictionRecord (Auth.id user) processingTime) w with
          | (w, inr e) => (Thrown e, w)
          | (w, inl analysis) => (ok_with 200 "" (AnalysisData analysis), w)
          end
      end
  end.

End AdvancedRoutes.

(** ** The server: requests and timer callbacks, one at a time *)

Module Server.
Import Db AnalysisRoutes.

Inductive Request :=
| GetById (c : Auth.Credentials) (id : ObjectId)
| Create (c : Auth.Credentials) (body : CreateBody)
| Update (c : Auth.Credentials) (id : ObjectId) (body : UpdateBody)
| Delete (c : Auth.Credentials) (id : ObjectId)
| Start (c : Auth.Credentials) (id : ObjectId)
| Like (c : Auth.Credentials) (id : ObjectId)
| Share (c : Auth.Credentials) (id : ObjectId)
| Upload (c : Auth.Credentials) (req : UploadRoutes.Request)
| MlPrediction (c : Auth.Credentials) (processingTime : option Z)
| Timeout (k : nat) (r1 r2 : Z).   (* the [k]-th waiting callback runs *)

(** One request handled to its end at time [now]; a timer callback sends
    no response. *)
Definition handle (now : Date) (rq : Request) (w : World)
  : option Outcome * World :=
  match rq with
  | GetById c id => let '(o, w) := getById c id w in (Some o, w)
  | Create c body => let '(o, w) := createAnalysis c body w in (Some o, w)
  | Update c id body => let '(o, w) := updateAnalysis c id body w in (Some o, w)
  | Delete c id => let '(o, w) := deleteAnalysis c id w in (Some o, w)
  | Start c id => let '(o, w) := start c id now w in (Some o, w)
  | Like c id => let '(o, w) := likeAnalysis c id w in (Some o, w)
  | Share c id => let '(o, w) := shareAnalysis c id w in (Some o, w)
  | Upload c req => let '(o, w) := UploadRoutes.uploadFiles c req w in (Some o, w)
  | MlPrediction c processingTime =>
      let '(o, w) := AdvancedRoutes.mlPrediction c processingTime w in (Some o, w)
  | Timeout k r1 r2 =>
      match timers w !! k with
      | Some analysis =>
          (None, onTimeout r1 r2 now analysis (set_timers (delete k (timers w)) w))
      | None => (None, w)
      end
  end.

(** An event: the clock, the answers the database will give to the writes
    of this event, and the request. *)
Record Event := mkEvent {
  time : Date;
  answers : list bool;
  request : Request;
}.

Definition step (e : Event) (w : World) : option Outcome * World :=
  handle (time e) (request e) (set_faults (answers e) w).

Definition run (es : list Event) (w : World) : World :=
  fold_left (fun w e => snd (step e w)) es w.

Definition initial : World := mkWorld ∅ 0%N [] [] ∅ [].

Definition reachable (w : World) : Prop := exists es, run es initial = w.

(** *** Invariants and transitions *)

(** The status each stored analysis has. *)
Definition statuses (w : World) : gmap ObjectId string :=
  Analysis.status <$> analyses w.

(** Every stored analysis was given an id already spent, passes the
    validators of the schema and carries the areas the hook computes. *)
Definition Stored (w : World) : Prop :=
  forall id a, analyses w !! id = Some a ->
    (id < nextId w)%N /\ Analysis.validate a = true /\ Analysis.preSave a = a.

(** The callbacks that wait: at most one for an analysis, each closing
    over a document in processing whose stored status, while it is stored,
    is processing. *)
Definition Waiting (w : World) : Prop :=
  NoDup (map _id (timers w)) /\
  forall d, d ∈ timers w ->
    (_id d < nextId w)%N
    /\ Analysis.status (this d) = "processing"
    /\ Analysis.status (loaded d) = "processing"
    /\ forall s, statuses w !! _id d = Some s -> s = "processing".

Definition Inv (w : World) : Prop := Stored w /\ Waiting w.

(** What a step may do to the stored statuses. *)
Definition legal (rq : Request) (s s' : string) : Prop :=
  (s = "pending" /\ s' = "processing" /\ exists c id, rq = Start c id)
  \/ (s = "processing" /\ s' = "completed" /\ exists k r1 r2, rq = Timeout k r1 r2)
  \/ (s = "processing" /\ s' = "failed" /\ exists k r1 r2, rq = Timeout k r1 r2).

Definition Transition (rq : Request) (w w' : World) : Prop :=
  forall id,
    match statuses w !! id, statuses w' !! id with
    | Some s, Some s' => s' = s \/ legal rq s s'
    | None, Some s' => s' = "pending"
    | _, None => True
    end.

(** The invariant and the transitions of one step, together. *)
Definition Good (rq : Request) (w w' : World) : Prop :=
  Inv w' /\ Transition rq w w'.

(** Worlds that agree on the collection, the ids and the timers. *)
Definition sameDb (w w' : World) : Prop :=
  analyses w' = analyses w /\ nextId w' = nextId w /\ timers w' = timers w.

(** *** The lifecycle paths *)

(** The status and the three time paths of an analysis. *)
Definition lifecycle (a : Analysis.t)
  : string * option Date * option Date * option Z :=
  (Analysis.status a, Analysis.processingStartedAt a, Analysis.completedAt a,
   Analysis.processingTime a).

Definition lifecycles (w : World)
  : gmap ObjectId (string * option Date * option Date * option Z) :=
  lifecycle <$> analyses w.

(** How the time paths go with the status in the analyses the server
    stores: nothing is set while pending; processingStartedAt alone while
    processing; once completedAt is set, the status is completed or failed
    and processingTime is the rounded difference in seconds. *)
Definition Timed (l : string * option Date * option Date * option Z) : Prop :=
  let '(status, started, completed, processingTime) := l in
  match started, completed with
  | None, None => status = "pending" /\ processingTime = None
  | Some _, None => status = "processing" /\ processingTime = None
  | Some s, Some c =>
      (status = "completed" \/ status = "failed")
      /\ processingTime = Some (Js.round_div_1000 (c - s))
  | None, Some _ => False
  end.

(** Every stored analysis is timed so, and every waiting callback closes
    over a document in processing, not modified, that agrees with the
    stored analysis on the lifecycle paths. *)
Definition Cycle (w : World) : Prop :=
  (forall id l, lifecycles w !! id = Some l -> Timed l)
  /\ forall t, t ∈ timers w ->
       lifecycle (loaded t) = lifecycle (this t)
       /\ (exists s, lifecycle (this t) = ("processing", Some s, None, None))
       /\ forall l, lifecycles w !! _id t = Some l -> l = lifecycle (this t).

(** *** Counters *)

Definition likes_of (id : ObjectId) (w : World) : option Z :=
  Analysis.likes <$> analyses w !! id.
Definition shares_of (id : ObjectId) (w : World) : option Z :=
  Analysis.shares <$> analyses w !! id.
Definition views_of (id : ObjectId) (w : World) : option Z :=
  Analysis.views <$> analyses w !! id.

(** [n] requests of the same kind, one after the other, every write
    accepted. *)
Definition inTurn (n : nat) (rq : Request) : list Event :=
  replicate n (mkEvent 0 [] rq).

End Server.

(** ** routes/authRoutes.js: registration *)

Module AuthRoutes.

(** The paths of a user document the registration handler reads or writes.
    The User model decides by itself whether [User.create] accepts the
    fields (validators, unique indexes); here the answer is the database's. *)
Record UserDoc := mkUser {
  _id : ObjectId;
  firstName : string;
  lastName : string;
  email : string;
  phone : string;
  gender : string;
  dateOfBirth : option string;
  password : string;
  emailVerificationToken : option string;
  emailVerificationExpire : option Date;
  isEmailVerified : bool;
}.

Record Mail := mkMail {
  to : string;
  subject : string;
  template : string;
  mail_firstName : string;
  verificationUrl : string;
}.

Record World := mkWorld {
  users : list UserDoc;       (* the Users collection, in insertion order *)
  nextId : ObjectId;
  faults : list bool;         (* answers of the database to the writes *)
  transport : list bool;      (* answers of the mail transport:
                                 [true] when sending throws *)
  outbox : list Mail;         (* mails handed to the transport *)
  console : list string;
}.

Record Body := mkBody {
  b_firstName : string;
  b_lastName : string;
  b_email : string;
  b_phone : string;
  b_gender : string;
  b_dateOfBirth : option string;
  b_password : string;
}.

Record Response := mkResponse {
  statusCode : Z;
  success : bool;
  message : string;
  data : option UserDoc;      (* the user the response describes *)
}.

Inductive Outcome :=
| Sent (res : Response)
| Thrown (e : Db.Error).

Definition refused (w : World) : bool :=
  match faults w with
  | b :: _ => b
  | [] => false
  end.

Definition answered (w : World) : World :=
  mkWorld (users w) (nextId w) (tail (faults w)) (transport w) (outbox w)
          (console w).

Definition console_error (line : string) (w : World) : World :=
  mkWorld (users w) (nextId w) (faults w) (transport w) (outbox w)
          (console w ++ [line]).

(** [User.findOne({ $or: [{ email }, { phone }] })] *)
Definition findOne (e p : string) (w : World) : option UserDoc :=
  List.find (fun u => bool_decide (email u = e) || bool_decide (phone u = p))
            (users w).

(** [User.create(fields)] *)
Definition create (b : Body) (w : World) : World * (UserDoc + Db.Error) :=
  if refused w then (answered w, inr Db.MongoError)
  else
    let user := mkUser (nextId w) (b_firstName b) (b_lastName b) (b_email b)
                       (b_phone b) (b_gender b) (b_dateOfBirth b)
                       (b_password b) None None false in
    (mkWorld (users w ++ [user]) (N.succ (nextId w)) (tail (faults w))
             (transport w) (outbox w) (console w),
     inl user).

(** [user.save({ validateBeforeSave: false })] *)
Definition save (user : UserDoc) (w : World) : World * option Db.Error :=
  if refused w then (answered w, Some Db.MongoError)
  else
    (mkWorld (map (fun u => if bool_decide (_id u = _id user) then user else u)
                  (users w))
             (nextId w) (tail (faults w)) (transport w) (outbox w) (console w),
     None).

(** utils/sendEmail.js: a failure is logged and rethrown. *)
Definition sendEmail (m : Mail) (w : World) : World * option Db.Error :=
  match transport w with
  | true :: rest =>
      (mkWorld (users w) (nextId w) (faults w) rest (outbox w)
               (console w ++ ["Email sending failed:"]),
       Some (Db.mkError "Error" "sendMail failed"))
  | _ =>
      (mkWorld (users w) (nextId w) (faults w) (tail (transport w))
               (outbox w ++ [m]) (console w),
       None)
  end.

(** The database accepts the next [n] writes. *)
Definition accepts (n : nat) (w : World) : bool :=
  forallb negb (take n (faults w)).

Section Register.
(** [crypto.createHash('sha256').update(_).digest('hex')] *)
Variable sha256 : string -> string.

Definition registered (user : UserDoc) : Response :=
  mkResponse 201 true
    "Registration successful! Please check your email to verify your account."
    (Some user).

(** *** POST /api/auth/register.
    [token] is [crypto.randomBytes(32).toString('hex')], [now] is
    [Date.now()], [host] is the protocol and host of the request. *)
Definition register (b : Body) (token : string) (now : Date) (host : string)
    (w : World) : Outcome * World :=
  let duplicate :=
    match findOne (b_email b) (b_phone b) w with
    | Some existingUser =>
        if bool_decide (email existingUser = b_email b)
        then Some (mkResponse 400 false "Email address is already registered" None)
        else if bool_decide (phone existingUser = b_phone b)
        then Some (mkResponse 400 false "Phone number is already registered" None)
        else None
    | None => None
    end in
  match duplicate with
  | Some res => (Sent res, w)
  | None =>
      match create b w with
      | (w, inr e) => (Thrown e, w)
      | (w, inl user) =>
          let user :=
            mkUser (_id user) (firstName user) (lastName user) (email user)
                   (phone user) (gender user) (dateOfBirth user)
                   (password user) (Some (sha256 token))
                   (Some (now + 24 * 60 * 60 * 1000)) (isEmailVerified user) in
          match save user w with
          | (w, Some e) => (Thrown e, w)
          | (w, None) =>
              let mail :=
                mkMail (email user) "Verify Your Vastu Vision Account"
                       "emailVerification" (firstName user)
                       (host ++ "/api/auth/verify-email/" ++ token) in
              match sendEmail mail w with
              | (w, None) => (Sent (registered user), w)
              | (w, Some _) =>
                  (Sent (registered user),
                   console_error "Email sending failed:" w)
              end
          end
      end
  end.
(** The user document the registration leaves in the collection. *)
Definition registeredUser (b : Body) (token : string) (now : Date) (w : World)
  : UserDoc :=
  mkUser (nextId w) (b_firstName b) (b_lastName b) (b_email b) (b_phone b)
         (b_gender b) (b_dateOfBirth b) (b_password b)
         (Some (sha256 token)) (Some (now + 24 * 60 * 60 * 1000)) false.
End Register.

End AuthRoutes.

(** ** models/VastuRule.js *)

Module Remedy.
Record t := mk {
  type : option string;
  description : option string;
  cost : option string;
  difficulty : option string;
  timeRequired : option string;
}.
#[global] Instance eq_dec : EqDecision t.
Proof. solve_decision. Defined.
End Remedy.

Module VastuRule.

Record t := mk {
  name : string;
  category : string;
  description : string;
  direction : option string;
  roomType : option string;
  element : option string;
  importance : string;
  impact : string;
  remedies : list Remedy.t;
  benefits : list string;
  consequences : list string;
  isActive : bool;
  priority : Z;
  tags : list string;
  lastModifiedBy : option ObjectId;
  version : Z;
}.
#[global] Instance eq_dec : EqDecision t.
Proof. solve_decision. Defined.

Definition set_isActive (v : bool) (r : t) : t :=
  mk (name r) (category r) (description r) (direction r) (roomType r)
     (element r) (importance r) (impact r) (remedies r) (benefits r)
     (consequences r) v (priority r) (tags r) (lastModifiedBy r) (version r).

Definition set_version (v : Z) (r : t) : t :=
  mk (name r) (category r) (description r) (direction r) (roomType r)
     (element r) (importance r) (impact r) (remedies r) (benefits r)
     (consequences r) (isActive r) (priority r) (tags r) (lastModifiedBy r) v.

(** *** Schema validators *)

Definition categoryEnum : list string :=
  ["direction"; "room-placement"; "five-elements"; "energy-flow";
   "color-scheme"; "furniture-placement"; "entrance"; "kitchen"; "bedroom";
   "bathroom"; "puja-room"; "general"].
Definition directionEnum : list string :=
  ["north"; "south"; "east"; "west"; "northeast"; "northwest"; "southeast";
   "southwest"; "center"; "any"].
Definition roomTypeEnum : list string :=
  ["bedroom"; "living-room"; "kitchen"; "bathroom"; "dining-room"; "study";
   "puja-room"; "balcony"; "entrance"; "any"].
Definition elementEnum : list string :=
  ["earth"; "water"; "fire"; "air"; "space"; "any"].
Definition importanceEnum : list string := ["critical"; "high"; "medium"; "low"].
Definition impactEnum : list string := ["positive"; "negative"; "neutral"].

Definition validRemedy (r : Remedy.t) : bool :=
  Analysis.optionally
    (Analysis.inEnum ["color"; "placement"; "decoration"; "construction"; "other"])
    (Remedy.type r)
  && Analysis.optionally (Analysis.inEnum ["low"; "medium"; "high"]) (Remedy.cost r)
  && Analysis.optionally (Analysis.inEnum ["easy"; "medium"; "hard"])
                         (Remedy.difficulty r).

Definition validate (r : t) : bool :=
  Analysis.requiredString (name r)
  && Analysis.inEnum categoryEnum (category r)
  && Analysis.requiredString (description r)
  && Analysis.optionally (Analysis.inEnum directionEnum) (direction r)
  && Analysis.optionally (Analysis.inEnum roomTypeEnum) (roomType r)
  && Analysis.optionally (Analysis.inEnum elementEnum) (element r)
  && Analysis.inEnum importanceEnum (importance r)
  && Analysis.inEnum impactEnum (impact r)
  && forallb validRemedy (remedies r)
  && Analysis.inRange 1 10 (priority r).

(** *** Methods *)

Definition getApplicableRemedies (budget difficulty : string) (r : t)
  : list Remedy.t :=
  List.filter
    (fun remedy =>
       let budgetMatch :=
         bool_decide (budget = "any")
         || bool_decide (Remedy.cost remedy = Some budget)
         || bool_decide (Remedy.cost remedy = Some "low") in
       let difficultyMatch :=
         bool_decide (difficulty = "any")
         || bool_decide (Remedy.difficulty remedy = Some difficulty)
         || bool_decide (Remedy.difficulty remedy = Some "easy") in
       budgetMatch && difficultyMatch)
    (remedies r).

(** *** Queries *)

(** A query-string or option value that is absent or empty adds no
    condition. *)
Definition whenGiven (x : option string) (cond : string -> bool) : bool :=
  match x with
  | Some v => if bool_decide (v = "") then true else cond v
  | None => true
  end.

(** [{ $in: [v, 'any'] }] on an optional path *)
Definition inOrAny (path : option string) (v : string) : bool :=
  bool_decide (path = Some v) || bool_decide (path = Some "any").

Record Filters := mkFilters {
  f_category : option string;
  f_direction : option string;
  f_roomType : option string;
  f_element : option string;
  f_importance : option string;
  f_impact : option string;
}.

Definition noFilters : Filters := mkFilters None None None None None None.

Definition matchesFilters (f : Filters) (r : t) : bool :=
  whenGiven (f_category f) (fun v => bool_decide (category r = v))
  && whenGiven (f_direction f) (inOrAny (direction r))
  && whenGiven (f_roomType f) (inOrAny (roomType r))
  && whenGiven (f_element f) (inOrAny (element r))
  && whenGiven (f_importance f) (fun v => bool_decide (importance r = v))
  && whenGiven (f_impact f) (fun v => bool_decide (impact r = v)).

(** [sort({ priority: -1, importance: -1 })] and [sort({ priority: -1 })]:
    does [r1] come no later than [r2]? *)
Definition byPriorityImportance (r1 r2 : t) : bool :=
  (priority r2 <? priority r1)
  || ((priority r1 =? priority r2)
      && match String.compare (importance r1) (importance r2) with
         | Lt => false
         | _ => true
         end).

Definition byPriority (r1 r2 : t) : bool := priority r2 <=? priority r1.

Fixpoint insertSorted {A} (before : A -> A -> bool) (x : A) (l : list A)
  : list A :=
  match l with
  | [] => [x]
  | y :: rest => if before x y then x :: l else y :: insertSorted before x rest
  end.

Definition sortBy {A} (before : A -> A -> bool) (l : list A) : list A :=
  foldr (insertSorted before) [] l.

(** [Model.find(query).sort(order)] over the collection: the matching
    documents, each with its id. *)
Definition find (query : t -> bool) (order : t -> t -> bool)
    (rules : gmap ObjectId t) : list (ObjectId * t) :=
  sortBy (fun x y => order (snd x) (snd y))
         (List.filter (fun x => query (snd x)) (map_to_list rules)).

Section Statics.
(** [regexTest pattern s]: does the case-insensitive regular expression
    [pattern] match somewhere in [s]? *)
Variable regexTest : string -> string -> bool.

Definition getByCategory (cat : string) (options : Filters)
    (rules : gmap ObjectId t) : list (ObjectId * t) :=
  find (fun r =>
          bool_decide (category r = cat) && isActive r
          && whenGiven (f_direction options) (inOrAny (direction r))
          && whenGiven (f_roomType options) (inOrAny (roomType r))
          && whenGiven (f_element options) (inOrAny (element r))
          && whenGiven (f_importance options)
               (fun v => bool_decide (importance r = v)))
       byPriorityImportance rules.

Definition getCriticalRules (rules : gmap ObjectId t) : list (ObjectId * t) :=
  find (fun r => isActive r && bool_decide (importance r = "critical"))
       byPriority rules.

Definition searchRules (searchTerm : string) (filters : Filters)
    (rules : gmap ObjectId t) : list (ObjectId * t) :=
  find (fun r =>
          isActive r
          && (regexTest searchTerm (name r)
              || regexTest searchTerm (description r)
              || existsb (regexTest searchTerm) (tags r))
          && whenGiven (f_category filters) (fun v => bool_decide (category r = v))
          && whenGiven (f_direction filters) (inOrAny (direction r))
          && whenGiven (f_roomType filters) (inOrAny (roomType r))
          && whenGiven (f_element filters) (inOrAny (element r))
          && whenGiven (f_importance filters)
               (fun v => bool_decide (importance r = v)))
       byPriorityImportance rules.
End Statics.

(** The pre-save hook: a modified document that is not new gets the next
    version. *)
Definition preSave (isModified isNew : bool) (r : t) : t :=
  if isModified && negb isNew then set_version (version r + 1) r else r.

End VastuRule.

(** ** routes/vastuRoutes.js *)

Module VastuRoutes.

Record World := mkWorld {
  rules : gmap ObjectId VastuRule.t;   (* the VastuRules collection *)
  faults : list bool;                  (* answers of the database to the writes *)
}.

Record Pagination := mkPagination {
  current : Z;
  pages : Z;
  total : Z;
  limit : Z;
}.

Inductive Data :=
| NoData
| RuleData (id : ObjectId) (rule : VastuRule.t)
| RulesData (rules : list (ObjectId * VastuRule.t)) (p : option Pagination)
| RemediesData (remedies : list Remedy.t).

Record Response := mkResponse {
  statusCode : Z;
  success : bool;
  message : string;
  data : Data;
}.

Inductive Outcome :=
| Sent (res : Response)
| Thrown (e : Db.Error).

Definition notFound : Outcome :=
  Sent (mkResponse 404 false "Vastu rule not found" NoData).

(** *** GET /api/vastu/rules.  [page] and [limit] are
    [parseInt(req.query.page) || 1] and [parseInt(req.query.limit) || 20]. *)
Definition listRules (page lim : option Z) (f : VastuRule.Filters) (w : World)
  : Outcome :=
  let page := match page with Some p => if p =? 0 then 1 else p | None => 1 end in
  let lim := match lim with Some l => if l =? 0 then 20 else l | None => 20 end in
  let skip := (page - 1) * lim in
  let query := fun r => VastuRule.isActive r && VastuRule.matchesFilters f r in
  let found := VastuRule.find query VastuRule.byPriorityImportance (rules w) in
  let shown := firstn (Z.to_nat lim) (skipn (Z.to_nat skip) found) in
  let total := Z.of_nat (List.length found) in
  Sent (mkResponse 200 true ""
          (RulesData shown
             (Some (mkPagination page (Js.ceil_div total lim) total lim)))).

(** *** GET /api/vastu/rules/:id *)
Definition getRule (id : ObjectId) (w : World) : Outcome :=
  match rules w !! id with
  | None => notFound
  | Some rule =>
      if negb (VastuRule.isActive rule) then notFound
      else Sent (mkResponse 200 true "" (RuleData id rule))
  end.

(** *** GET /api/vastu/rules/:id/remedies, [budget] and [difficulty]
    defaulting to 'medium' *)
Definition getRemedies (id : ObjectId) (budget difficulty : option string)
    (w : World) : Outcome :=
  match rules w !! id with
  | None => notFound
  | Some rule =>
      if negb (VastuRule.isActive rule) then notFound
      else Sent (mkResponse 200 true ""
                   (RemediesData
                      (VastuRule.getApplicableRemedies
                         (default "medium" budget) (default "medium" difficulty)
                         rule)))
  end.

Section Search.
Variable regexTest : string -> string -> bool.

(** *** GET /api/vastu/rules/search *)
Definition search (q : option string) (filters : VastuRule.Filters) (w : World)
  : Outcome :=
  match q with
  | Some term =>
      if bool_decide (term = "")
      then Sent (mkResponse 400 false "Search query is required" NoData)
      else Sent (mkResponse 200 true ""
                   (RulesData (VastuRule.searchRules regexTest term filters (rules w))
                              None))
  | None => Sent (mkResponse 400 false "Search query is required" NoData)
  end.
End Search.

(** *** GET /api/vastu/rules/category/:category *)
Definition byCategory (cat : string) (direction roomType element : option string)
    (w : World) : Outcome :=
  Sent (mkResponse 200 true ""
          (RulesData
             (VastuRule.getByCategory cat
                (VastuRule.mkFilters None direction roomType element None None)
                (rules w))
             None)).

(** *** GET /api/vastu/rules/critical *)
Definition critical (w : World) : Outcome :=
  Sent (mkResponse 200 true ""
          (RulesData (VastuRule.getCriticalRules (rules w)) None)).

(** [authorize('admin')], after [protect] *)
Definition authorize (roles : list string) (user : Auth.User) : option Auth.Response :=
  if negb (bool_decide (Auth.role user ∈ roles))
  then Some (Auth.mkResponse 403 false
               ("Access denied. " ++ Auth.role user
                ++ " role is not authorized to access this resource."))
  else None.

Definition deny (r : Auth.Response) : Outcome :=
  Sent (mkResponse (Auth.statusCode r) (Auth.success r) (Auth.message r) NoData).

(** [rule.save()] on a loaded rule: validation, the version hook, then the
    write; with no path modified there is nothing to write. *)
Definition save (id : ObjectId) (loaded rule : VastuRule.t) (w : World)
  : World * option Db.Error :=
  if negb (VastuRule.validate rule) then (w, Some Db.ValidationError)
  else
    let rule := VastuRule.preSave (negb (bool_decide (rule = loaded))) false rule in
    if bool_decide (rule = loaded) then (w, None)
    else
      match faults w with
      | true :: rest => (mkWorld (rules w) rest, Some Db.MongoError)
      | _ =>
          match rules w !! id with
          | None => (mkWorld (rules w) (tail (faults w)),
                     Some Db.DocumentNotFoundError)
          | Some _ => (mkWorld (<[id := rule]> (rules w)) (tail (faults w)), None)
          end
      end.

(** *** DELETE /api/vastu/rules/:id *)
Definition deleteRule (c : Auth.Credentials) (id : ObjectId) (w : World)
  : Outcome * World :=
  match Auth.protect c with
  | inl r => (deny r, w)
  | inr user =>
      match authorize ["admin"] user with
      | Some r => (deny r, w)
      | None =>
          match rules w !! id with
          | None => (notFound, w)
          | Some rule =>
              match save id rule (VastuRule.set_isActive false rule) w with
              | (w, Some e) => (Thrown e, w)
              | (w, None) =>
                  (Sent (mkResponse 200 true
                           "Vastu rule deactivated successfully" NoData), w)
              end
          end
      end
  end.

(** *** What the responses carry, what a deactivation leaves *)

(** The rules a response carries. *)
Definition returned (o : Outcome) : list (ObjectId * VastuRule.t) :=
  match o with
  | Sent res =>
      match data res with
      | RulesData rs _ => rs
      | _ => []
      end
  | Thrown _ => []
  end.

(** The rule a deactivation leaves: inactive, the next version, every
    other path as it was. *)
Definition deactivated (rule : VastuRule.t) : VastuRule.t :=
  VastuRule.set_version (VastuRule.version rule + 1)
                        (VastuRule.set_isActive false rule).

End VastuRoutes.

(** ** Sample accounts, requests and worlds *)

Module Examples.
Import Db AnalysisRoutes Server.

(** A premium account and a free-tier account, both active. *)
Definition alice : Auth.User := Auth.mkUser 1 true true "user".
Definition bob : Auth.User := Auth.mkUser 2 true false "user".

Definition asAlice : Auth.Credentials := Auth.Token (Some alice).
Definition asBob : Auth.Credentials := Auth.Token (Some bob).

Definition noDimensions : Dimensions.t := Dimensions.mk None None None "sqft".

(** Scenario A of the specification: a title, an orientation, no rooms. *)
Definition myHome : CreateBody :=
  mkCreateBody "My Home" None (FloorPlan.mk noDimensions (Some "north") [])
               None None.

Definition publicHome : CreateBody :=
  mkCreateBody "Open House" None (FloorPlan.mk noDimensions (Some "east") [])
               (Some true) None.

(** A floor plan whose caller supplies areas of their own: a plan area
    with no length and width, and a room of length zero. *)
Definition ownAreas : CreateBody :=
  mkCreateBody "Annex" None
    (FloorPlan.mk (Dimensions.mk None None (Some 500) "sqft") (Some "north")
       [Room.mk "Store" "other" None
                (RoomDimensions.mk (Some 0) (Some 5) (Some 99)) None])
    None None.

(** A plan of 10 by 20 with a room of 3 by 4; the caller supplies a plan
    area of 7. *)
Definition villa : CreateBody :=
  mkCreateBody "Villa" None
    (FloorPlan.mk (Dimensions.mk (Some 10) (Some 20) (Some 7) "sqft") (Some "south")
       [Room.mk "Hall" "living-room" None
                (RoomDimensions.mk (Some 3) (Some 4) None) (Some "north")])
    None None.

Definition withVilla : World :=
  run [mkEvent 0 [] (Create asAlice villa)] initial.

(** The stored villa as another client of the database left it: the plan
    of 10 by 20 with the area 7, written past the hook. *)
Definition miscomputed : World :=
  set_analyses (<[0%N := newAnalysis 1 villa]> (analyses withVilla)) withVilla.

(** The document the creation of [myHome] by Alice stores. *)
Definition newHome : Analysis.t := newAnalysis 1 myHome.

(** Alice has created [myHome]: analysis 0, pending. *)
Definition created : World :=
  run [mkEvent 0 [] (Create asAlice myHome)] initial.

(** Alice has then started it at time 1000. *)
Definition started : World :=
  run [mkEvent 1000 [] (Start asAlice 0%N)] created.

(** Its callback has then run at time 6400, the write accepted: analysis
    0, completed. *)
Definition completed : World :=
  run [mkEvent 6400 [] (Timeout 0 5 5)] started.

(** Two start requests of Alice on the pending analysis 0 that both read
    it before either writes, at times 1000 and 1001: two callbacks wait. *)
Definition startedTwice : World :=
  match startLookup asAlice 0%N created with
  | inr analysis =>
      snd (startProcessing 1001 analysis
             (snd (startProcessing 1000 analysis created)))
  | inl _ => created
  end.

(** Bob has created [myHome]: analysis 0, pending, owned by Bob. *)
Definition createdByBob : World :=
  run [mkEvent 0 [] (Create asBob myHome)] initial.

(** Alice has created [publicHome]: analysis 0, public. *)
Definition published : World :=
  run [mkEvent 0 [] (Create asAlice publicHome)] initial.

(** The published analysis as another client of the database left it:
    with an empty title, which the validators refuse. *)
Definition untitled : Analysis.t :=
  Analysis.set_title "" (newAnalysis 1 publicHome).

Definition tampered : World :=
  set_analyses (<[0%N := untitled]> (analyses published)) published.

Definition retitle : UpdateBody :=
  mkUpdateBody (Some "New title") None None None.

(** Scenario D: two files, the second of which the blob store refuses. *)
Definition twoFiles : UploadRoutes.Request :=
  UploadRoutes.mkRequest (Some "Plans") None
    [UploadRoutes.mkFile "ground.png" "image/png"
     (Some (UploadRoutes.mkResult "vastu-vision/users/1/ground"
                                  "https://cdn/ground.jpg" 2048));
     UploadRoutes.mkFile "first.png" "image/png" None]
    [] "1/1/2025".

Definition newcomer : AuthRoutes.Body :=
  AuthRoutes.mkBody "Asha" "Rao" "asha@example.org" "+911234567890" "female"
                  None "S3cret!pw".

(** A stand-in for the SHA-256 digest. *)
Definition digest (s : string) : string := "sha256:" ++ s.

(** An empty collection and a mail transport that throws. *)
Definition mailDown : AuthRoutes.World := AuthRoutes.mkWorld [] 0%N [] [true] [] [].

Definition admin : Auth.User := Auth.mkUser 9 true true "admin".

Definition mainDoor : VastuRule.t :=
  VastuRule.mk "Main Door Direction" "entrance"
    "The main door should face north, east, or northeast."
    (Some "north") (Some "entrance") (Some "air") "critical" "positive"
    [Remedy.mk (Some "placement") (Some "Place a mirror") (Some "low")
               (Some "easy") None]
    [] [] true 10 ["door"] None 1.

Definition catalog : VastuRoutes.World := VastuRoutes.mkWorld {[ 7%N := mainDoor ]} [].

End Examples.
(** * Properties *)

(** ** The schema's hooks and the paths a save writes *)

Section AnalysisFacts.
Import Analysis.

Lemma validRoom_roomArea r : validRoom (roomArea r) = validRoom r.
Proof. unfold roomArea. by case_match. Qed.

Lemma validFloorPlan_hook fp :
  validFloorPlan
    (FloorPlan.mk (planArea (FloorPlan.dimensions fp)) (FloorPlan.orientation fp)
                  (map roomArea (FloorPlan.rooms fp)))
  = validFloorPlan fp.
Proof.
  unfold validFloorPlan; simpl. f_equal; [f_equal|].
  - unfold planArea. by case_match.
  - induction (FloorPlan.rooms fp) as [|r rs IH]; [done|].
    simpl. by rewrite validRoom_roomArea, IH.
Qed.

Lemma validate_preSave a : validate (preSave a) = validate a.
Proof. unfold validate, preSave; simpl. by rewrite validFloorPlan_hook. Qed.

Lemma planArea_idem d : planArea (planArea d) = planArea d.
Proof.
  unfold planArea.
  destruct (Js.truthy (Dimensions.length d) && Js.truthy (Dimensions.width d))
    eqn:E; simpl; by rewrite E.
Qed.

Lemma roomArea_idem r : roomArea (roomArea r) = roomArea r.
Proof.
  unfold roomArea.
  destruct (Js.truthy (RoomDimensions.length (Room.dimensions r))
            && Js.truthy (RoomDimensions.width (Room.dimensions r)))
    eqn:E; simpl; by rewrite E.
Qed.

Lemma preSave_idem a : preSave (preSave a) = preSave a.
Proof.
  unfold preSave; simpl. unfold set_floorPlan; simpl.
  rewrite planArea_idem. do 2 f_equal.
  rewrite map_map. apply map_ext. intros; apply roomArea_idem.
Qed.

(** The hook touches the floor plan only. *)
Lemma preSave_floorPlan_only a :
  preSave a = set_floorPlan (floorPlan (preSave a)) a.
Proof. reflexivity. Qed.

End AnalysisFacts.

Section DbFacts.
Import Db.

Lemma path_same {A} `{EqDecision A} (now stored : A) : path stored now stored = now.
Proof. unfold path. case_decide; congruence. Qed.

(** Saving over the values that were loaded stores the current values. *)
Lemma written_same a now : written a now a = now.
Proof. destruct now. unfold written; simpl. by rewrite !path_same. Qed.

Lemma written_unmodified was stored : written was was stored = stored.
Proof.
  destruct stored. unfold written, path; simpl.
  repeat (case_decide; [|congruence]). done.
Qed.

Lemma written_valid was now stored :
  Analysis.validate now = true -> Analysis.validate stored = true ->
  Analysis.validate (written was now stored) = true.
Proof.
  unfold Analysis.validate, written, path; simpl.
  rewrite !andb_true_iff. intros. destruct_and!.
  repeat case_decide; repeat split; assumption.
Qed.

Lemma written_status was now stored :
  Analysis.status (written was now stored)
  = if decide (Analysis.status now = Analysis.status was)
    then Analysis.status stored else Analysis.status now.
Proof. reflexivity. Qed.

Lemma preSave_fixed_iff a :
  Analysis.preSave a = a <-> withAreas (Analysis.floorPlan a) = Analysis.floorPlan a.
Proof.
  unfold Analysis.preSave. fold (withAreas (Analysis.floorPlan a)).
  destruct a; simpl. unfold Analysis.set_floorPlan; simpl.
  split; [intros E; by injection E | by intros ->].
Qed.

Lemma withAreas_idem fp : withAreas (withAreas fp) = withAreas fp.
Proof.
  unfold withAreas; simpl. rewrite planArea_idem. f_equal.
  rewrite map_map. apply map_ext. intros; apply roomArea_idem.
Qed.

Lemma written_fixed was now stored :
  Analysis.preSave now = now -> Analysis.preSave stored = stored ->
  Analysis.preSave (written was now stored) = written was now stored.
Proof.
  rewrite !preSave_fixed_iff. unfold written, path; simpl.
  intros. case_decide; congruence.
Qed.

Lemma save_result v d w d' w' r :
  save v d w = (d', w', r) -> SaveResult v d w d' w' r.
Proof.
  unfold save.
  destruct (v && negb (Analysis.validate (this d))) eqn:Ev.
  { intros [= <- <- <-]. apply andb_true_iff in Ev as [-> Ev].
    apply negb_true_iff in Ev. by constructor. }
  assert (Hv : v = true -> Analysis.validate (this d) = true).
  { intros ->. simpl in Ev. by apply negb_false_iff in Ev. }
  simpl. case_decide as Hm.
  { intros [= <- <- <-]. by apply SaveNothing. }
  destruct (refused w) eqn:Er.
  { intros [= <- <- <-]. apply SaveFailed; auto. }
  destruct (analyses w !! _id d) as [stored|] eqn:Ef.
  - intros [= <- <- <-]. by apply SaveWritten.
  - intros [= <- <- <-]. apply SaveFailed; auto.
Qed.

End DbFacts.

(** ** Invariants of the server *)

Section Invariants.
Import Db AnalysisMethods AnalysisRoutes Server.

Lemma statuses_lookup w id :
  statuses w !! id = Analysis.status <$> analyses w !! id.
Proof. unfold statuses. apply lookup_fmap. Qed.

Lemma save_frame v d w d' w' r :
  save v d w = (d', w', r) ->
  nextId w' = nextId w /\ timers w' = timers w /\ cloudinary w' = cloudinary w
  /\ console w' = console w /\ _id d' = _id d.
Proof. intros H%save_result. by destruct H. Qed.

Lemma save_Stored v d w d' w' r :
  save v d w = (d', w', r) ->
  (v = false -> Analysis.validate (this d) = true) ->
  Stored w -> Stored w'.
Proof.
  intros H%save_result Hv HS.
  destruct H as [| | |stored Hval Hm Hr Hf]; try done.
  intros id a. simpl. rewrite lookup_insert. case_decide as Hid.
  - intros [= <-]. subst id. destruct (HS _ _ Hf) as (? & ? & ?).
    split; [done|]. split.
    + apply written_valid; [|done].
      rewrite validate_preSave. destruct v; auto.
    + apply written_fixed; [apply preSave_idem | done].
  - apply HS.
Qed.

(** A save changes at most the status of the document saved, and only to
    the status the document has in memory. *)
Lemma save_statuses v d w d' w' r :
  save v d w = (d', w', r) ->
  statuses w' = statuses w
  \/ (r = None
      /\ Analysis.status (this d) <> Analysis.status (loaded d)
      /\ is_Some (statuses w !! _id d)
      /\ statuses w' = <[_id d := Analysis.status (this d)]> (statuses w)).
Proof.
  intros H%save_result.
  destruct H as [| | |stored Hval Hm Hr Hf]; auto.
  unfold statuses; simpl. rewrite fmap_insert, written_status. simpl.
  case_decide as Hs.
  - left. apply insert_id. by rewrite lookup_fmap, Hf.
  - right. repeat split; auto. rewrite lookup_fmap, Hf. by eexists.
Qed.

Lemma save_status_this v d w d' w' r :
  save v d w = (d', w', r) ->
  Analysis.status (this d') = Analysis.status (this d)
  /\ (Analysis.status (loaded d') = Analysis.status (loaded d)
      \/ (r = None /\ Analysis.status (loaded d') = Analysis.status (this d))).
Proof. intros H%save_result. destruct H; simpl; auto. Qed.

(** Saving a document whose status was not assigned leaves the stored
    statuses and the waiting callbacks as they are. *)
Lemma save_quiet v d w d' w' r :
  save v d w = (d', w', r) ->
  Analysis.status (this d) = Analysis.status (loaded d) ->
  statuses w' = statuses w.
Proof. intros H%save_statuses Hs. destruct H as [|(_ & ? & _)]; done. Qed.

Lemma Waiting_quiet w w' :
  statuses w' = statuses w -> nextId w' = nextId w -> timers w' = timers w ->
  Waiting w -> Waiting w'.
Proof. unfold Waiting. by intros -> -> ->. Qed.

Lemma findById_Some id w d :
  findById id w = Some d ->
  analyses w !! id = Some (this d) /\ loaded d = this d /\ _id d = id.
Proof. unfold findById. destruct (analyses w !! id); [|done]. by intros [= <-]. Qed.

Lemma Transition_same rq w w' : statuses w' = statuses w -> Transition rq w w'.
Proof. intros E id. rewrite E. destruct (statuses w !! id); auto. Qed.

Lemma Good_refl rq w : Inv w -> Good rq w w.
Proof. split; [done | by apply Transition_same]. Qed.

(** *** Handlers that do not assign the status *)

Lemma quiet_save v f id d w d' w' r rq :
  findById id w = Some d ->
  (forall a, Analysis.status (f a) = Analysis.status a) ->
  (v = false -> forall a, Analysis.validate (f a) = Analysis.validate a) ->
  save v (assign f d) w = (d', w', r) ->
  Inv w -> Good rq w w'.
Proof.
  intros (Hf & Hl & _)%findById_Some Hs Hv E [HS HW].
  assert (statuses w' = statuses w) as Hq.
  { eapply save_quiet; [done|]. simpl. by rewrite Hs, Hl. }
  destruct (save_frame _ _ _ _ _ _ E) as (? & ? & _).
  split; [split|].
  - eapply save_Stored; [done| |done]. intros ->. simpl. rewrite Hv by done.
    by destruct (HS _ _ Hf) as (_ & ? & _).
  - by eapply Waiting_quiet.
  - by apply Transition_same.
Qed.

Ltac by_quiet_save :=
  match goal with
  | H : save ?v (assign ?f ?d) ?w = _ |- _ =>
      eapply (quiet_save v f);
      [eassumption | try done | try done | exact H | assumption]
  end.

Lemma getById_Good c id w o w' rq :
  getById c id w = (o, w') -> Inv w -> Good rq w w'.
Proof.
  unfold getById, incrementViews. intros E HI.
  destruct (findById id w) as [d|] eqn:Ef; [|injection E as <- <-; by apply Good_refl].
  repeat case_match; simplify_eq; try by apply Good_refl.
  all: by_quiet_save.
Qed.

Lemma applyUpdate_status b a :
  Analysis.status (applyUpdate b a) = Analysis.status a.
Proof. unfold applyUpdate. by repeat case_match. Qed.

Lemma updateAnalysis_Good c id b w o w' rq :
  updateAnalysis c id b w = (o, w') -> Inv w -> Good rq w w'.
Proof.
  unfold updateAnalysis. intros E HI.
  repeat case_match; simplify_eq; try by apply Good_refl.
  all: by_quiet_save; apply applyUpdate_status.
Qed.

Lemma likeAnalysis_Good c id w o w' rq :
  likeAnalysis c id w = (o, w') -> Inv w -> Good rq w w'.
Proof.
  unfold likeAnalysis, likeLookup, likeSave, like. intros E HI.
  repeat case_match; simplify_eq; try by apply Good_refl.
  all: by_quiet_save.
Qed.

Lemma shareAnalysis_Good c id w o w' rq :
  shareAnalysis c id w = (o, w') -> Inv w -> Good rq w w'.
Proof.
  unfold shareAnalysis, shareLookup, shareSave, share. intros E HI.
  repeat case_match; simplify_eq; try by apply Good_refl.
  all: by_quiet_save.
Qed.

Lemma sameDb_Good rq w0 w w' : sameDb w w' -> Good rq w0 w -> Good rq w0 w'.
Proof.
  intros (Ha & Hn & Ht) [[HS HW] HT].
  assert (statuses w' = statuses w) as Hs by (unfold statuses; by rewrite Ha).
  split; [split|].
  - unfold Stored. rewrite Ha, Hn. apply HS.
  - by eapply Waiting_quiet.
  - intros id. rewrite Hs. apply HT.
Qed.

Lemma sameDb_Inv w w' : sameDb w w' -> Inv w -> Inv w'.
Proof.
  intros H HI. eapply (sameDb_Good (Timeout 0 0 0) w); [done|].
  by apply Good_refl.
Qed.

Lemma sameDb_trans w1 w2 w3 : sameDb w1 w2 -> sameDb w2 w3 -> sameDb w1 w3.
Proof. unfold sameDb. intros (-> & -> & ->) (-> & -> & ->). done. Qed.

Lemma answered_sameDb w : sameDb w (answered w).
Proof. done. Qed.

Lemma Good_answered rq w : Inv w -> Good rq w (answered w).
Proof.
  intros. eapply sameDb_Good; [apply answered_sameDb | by apply Good_refl].
Qed.

(** *** Deletion *)

Lemma deleteAnalysis_Good c id w o w' rq :
  deleteAnalysis c id w = (o, w') -> Inv w -> Good rq w w'.
Proof.
  unfold deleteAnalysis, findByIdAndDelete. intros E HI.
  repeat case_match; simplify_eq; try by apply Good_refl.
  all: try by apply Good_answered.
  destruct HI as [HS [HN HW]]. split; [split; [|split]|].
  - intros id' a; simpl. intros [_ Hl]%lookup_delete_Some. by apply HS.
  - done.
  - intros t Ht. destruct (HW t Ht) as (? & ? & ? & Hs).
    repeat split; try done. intros s. rewrite statuses_lookup; simpl.
    intros Hl. apply Hs. rewrite statuses_lookup.
    destruct (decide (id = _id t)) as [->|Hne].
    + by rewrite lookup_delete_eq in Hl.
    + by rewrite lookup_delete_ne in Hl.
  - intros id'. rewrite !statuses_lookup; simpl.
    destruct (decide (id = id')) as [->|Hne].
    + rewrite lookup_delete_eq. simpl. by destruct (analyses w !! id').
    + rewrite lookup_delete_ne by done.
      destruct (analyses w !! id'); simpl; auto.
Qed.

(** *** Creation *)

Lemma create_Good fields w w' res rq :
  create fields w = (w', res) ->
  Analysis.status fields = "pending" ->
  Inv w -> Good rq w w'.
Proof.
  unfold create. intros E Hp HI.
  destruct (negb (Analysis.validate fields)) eqn:Hv;
    [injection E as <- <-; by apply Good_refl|].
  apply negb_false_iff in Hv.
  destruct (refused w); injection E as <- <-; [by apply Good_answered|].
  destruct HI as [HS [HN HW]].
  assert (analyses w !! nextId w = None) as Hfresh.
  { destruct (analyses w !! nextId w) eqn:El; [|done].
    destruct (HS _ _ El) as [? _]. lia. }
  split; [split; [|split]|].
  - intros id a; simpl. rewrite lookup_insert. case_decide.
    + intros [= <-]. subst. split; [lia|]. split.
      * by rewrite validate_preSave.
      * apply preSave_idem.
    + intros El. destruct (HS _ _ El) as (? & ? & ?). split; [lia | done].
  - done.
  - intros t Ht. destruct (HW t Ht) as (? & ? & ? & Hs).
    simpl. split; [lia|]. repeat split; try done.
    intros s. rewrite statuses_lookup; simpl.
    rewrite lookup_insert_ne by lia. rewrite <- statuses_lookup. apply Hs.
  - intros id. rewrite !statuses_lookup; simpl.
    rewrite lookup_insert. case_decide.
    + subst. rewrite Hfresh. done.
    + destruct (analyses w !! id); simpl; auto.
Qed.

Lemma createAnalysis_Good c b w o w' rq :
  createAnalysis c b w = (o, w') -> Inv w -> Good rq w w'.
Proof.
  unfold createAnalysis. intros E HI.
  repeat case_match; simplify_eq; try by apply Good_refl.
  all: by eapply create_Good.
Qed.

Lemma uploadEach_sameDb files acc w w' up r :
  UploadRoutes.uploadEach files acc w = (w', up, r) -> sameDb w w'.
Proof.
  revert acc w. induction files as [|f fs IH]; intros acc w; simpl.
  - by intros [= <- _ _].
  - unfold UploadRoutes.uploadToCloudinary. destruct (UploadRoutes.answer f).
    + intros H%IH. eapply sameDb_trans; [|exact H]. done.
    + by intros [= <- _ _].
Qed.

Lemma cleanup_sameDb up ds w : sameDb w (UploadRoutes.cleanup up ds w).
Proof.
  revert ds w. induction up as [|f fs IH]; intros ds w; simpl; [done|].
  destruct ds as [|[] ds]; simpl;
    (eapply sameDb_trans; [|apply IH]); done.
Qed.

Lemma uploadFiles_Good c req w o w' rq :
  UploadRoutes.uploadFiles c req w = (o, w') -> Inv w -> Good rq w w'.
Proof.
  unfold UploadRoutes.uploadFiles. intros E HI.
  destruct (Auth.protect c); [injection E as <- <-; by apply Good_refl|].
  destruct (negb _); [injection E as <- <-; by apply Good_refl|].
  case_bool_decide; [injection E as <- <-; by apply Good_refl|].
  destruct (UploadRoutes.uploadEach _ _ _) as [[w1 up] r] eqn:Eu.
  apply uploadEach_sameDb in Eu.
  assert (Good rq w w1) as H1.
  { eapply sameDb_Good; [done|]. by apply Good_refl. }
  destruct r.
  { injection E as <- <-. eapply sameDb_Good; [apply cleanup_sameDb | done]. }
  destruct (create _ w1) as [w2 res] eqn:Ec.
  assert (Good rq w w2) as H2.
  { destruct H1 as [HI1 _]. eapply create_Good in Ec; [|done|done].
    destruct Ec as [HI2 HT2]. split; [done|].
    intros id. specialize (HT2 id).
    destruct Eu as (Ha & _). unfold statuses in *. by rewrite Ha in HT2. }
  destruct res; injection E as <- <-; [done|].
  eapply sameDb_Good; [apply cleanup_sameDb | done].
Qed.

(** *** Saves that assign the status *)

Lemma updateStatus_processing now d w :
  updateStatus "processing" now d w
  = save true
      (assign (Analysis.set_processingStartedAt (Some now))
              (assign (Analysis.set_status "processing") d)) w.
Proof. reflexivity. Qed.

Lemma updateStatus_failed now d w :
  updateStatus "failed" now d w
  = save true (assign (Analysis.set_status "failed") d) w.
Proof. reflexivity. Qed.

Lemma updateStatus_completed now d w :
  updateStatus "completed" now d w = save true (completedDoc now d) w.
Proof. reflexivity. Qed.

Lemma completedDoc_facts now d :
  Analysis.status (this (completedDoc now d)) = "completed"
  /\ loaded (completedDoc now d) = loaded d
  /\ _id (completedDoc now d) = _id d.
Proof. unfold completedDoc. simpl. by case_match. Qed.

Lemma save_status_assigned v d w d' w' :
  save v d w = (d', w', None) ->
  Analysis.status (this d) <> Analysis.status (loaded d) ->
  exists stored,
    analyses w !! _id d = Some stored
    /\ refused w = false
    /\ (v = true -> Analysis.validate (this d) = true)
    /\ d' = mkDoc (_id d) (Analysis.preSave (this d)) (Analysis.preSave (this d))
    /\ w' = set_analyses
              (<[_id d := written (loaded d) (Analysis.preSave (this d)) stored]>
                 (analyses w))
              (answered w).
Proof.
  intros H%save_result Hs.
  inversion H as [ | Hv Hm | | stored Hv Hm Hr Hf]; subst.
  - exfalso. apply Hs. by rewrite <- Hm.
  - by exists stored.
Qed.

Lemma save_assigned_statuses v d w d' w' :
  save v d w = (d', w', None) ->
  Analysis.status (this d) <> Analysis.status (loaded d) ->
  statuses w' = <[_id d := Analysis.status (this d)]> (statuses w)
  /\ Analysis.status (loaded d') = Analysis.status (this d)
  /\ Analysis.status (this d') = Analysis.status (this d).
Proof.
  intros E Hs.
  destruct (save_status_assigned _ _ _ _ _ E Hs) as (st & _ & _ & _ & -> & ->).
  split; [|done]. unfold statuses; simpl.
  rewrite fmap_insert, written_status. simpl. by case_decide.
Qed.

Lemma Stored_frame w w' :
  analyses w' = analyses w -> nextId w' = nextId w -> Stored w -> Stored w'.
Proof. unfold Stored. by intros -> ->. Qed.

(** Assigning a status to an analysis no callback waits for. *)
Lemma Waiting_assign w w' id s :
  Waiting w ->
  (forall t, t ∈ timers w -> _id t <> id) ->
  nextId w' = nextId w -> timers w' = timers w ->
  statuses w' = <[id := s]> (statuses w) ->
  Waiting w'.
Proof.
  intros [HN HW] Hne En Et Es. split; [by rewrite Et|].
  rewrite Et, En, Es. intros t Ht.
  destruct (HW t Ht) as (? & ? & ? & Hs). repeat split; try done.
  intros s'. rewrite lookup_insert_ne by (symmetry; by apply Hne). apply Hs.
Qed.

(** One validated save of a document no callback waits for. *)
Lemma save_assign_Inv d w d' w' r :
  save true d w = (d', w', r) ->
  (forall t, t ∈ timers w -> _id t <> _id d) ->
  Inv w ->
  Inv w'
  /\ (statuses w' = statuses w
      \/ (r = None /\ is_Some (statuses w !! _id d)
          /\ statuses w' = <[_id d := Analysis.status (this d)]> (statuses w))).
Proof.
  intros E Hne [HS HW].
  destruct (save_frame _ _ _ _ _ _ E) as (En & Et & _).
  split; [split|].
  - by eapply save_Stored.
  - destruct (save_statuses _ _ _ _ _ _ E) as [Hq|(_ & _ & _ & Hq)].
    + by eapply Waiting_quiet.
    + by eapply Waiting_assign.
  - destruct (save_statuses _ _ _ _ _ _ E) as [Hq|(? & _ & ? & Hq)]; auto.
Qed.

(** *** Start *)

Lemma startLookup_inr c id w d :
  startLookup c id w = inr d ->
  findById id w = Some d /\ Analysis.status (this d) = "pending"
  /\ exists user, Auth.protect c = inr user
                  /\ Auth.isPremium user = true
                  /\ otherUser (this d) user = false.
Proof.
  unfold startLookup, Auth.requirePremium. intros E.
  repeat case_match; simplify_eq.
  split; [done|]. split.
  - match goal with H : negb (bool_decide _) = false |- _ =>
      apply negb_false_iff, bool_decide_eq_true in H end. done.
  - eexists; repeat split; try done.
    match goal with H : negb (Auth.isPremium _) = false |- _ =>
      by apply negb_false_iff in H end.
Qed.

Lemma start_Good c id now w o w' :
  start c id now w = (o, w') -> Inv w -> Good (Start c id) w w'.
Proof.
  unfold start. intros E HI.
  destruct (startLookup c id w) as [res|d] eqn:El;
    [injection E as <- <-; by apply Good_refl|].
  apply startLookup_inr in El as (Hf & Hp & _).
  apply findById_Some in Hf as (Hf & Hl & Hid).
  assert (statuses w !! id = Some "pending") as Hst.
  { by rewrite statuses_lookup, Hf; simpl; rewrite Hp. }
  assert (forall t, t ∈ timers w -> _id t <> id) as Hne.
  { intros t Ht Heq. destruct HI as [_ [_ HW]].
    destruct (HW t Ht) as (_ & _ & _ & Hs). rewrite Heq in Hs.
    by specialize (Hs _ Hst). }
  unfold startProcessing in E. rewrite updateStatus_processing in E.
  match type of E with context [save true ?x w] => set (d2 := x) in * end.
  destruct (save true d2 w) as [[d' w1] r] eqn:Es.
  assert (_id d2 = id) as Hid2 by done.
  destruct (save_assign_Inv _ _ _ _ _ Es) as [HI1 Hq]; [by rewrite Hid2|done|].
  destruct (save_frame _ _ _ _ _ _ Es) as (En & Et & _ & _ & Hid').
  destruct r as [e|].
  { injection E as <- <-. split; [done|].
    destruct Hq as [Hq|(? & _)]; [by apply Transition_same|done]. }
  injection E as <- <-.
  assert (Analysis.status (this d2) <> Analysis.status (loaded d2)) as Hdiff.
  { simpl. rewrite Hl, Hp. done. }
  destruct (save_assigned_statuses _ _ _ _ _ Es Hdiff) as (Hq' & Hloaded & Hthis).
  clear Hq. rename Hq' into Hq. rewrite Hid2 in Hq. simpl in Hq.
  destruct HI1 as [HS1 [HN1 HW1]].
  split; [split; [|split]|].
  - eapply Stored_frame; [| |exact HS1]; done.
  - simpl. rewrite Et, map_app. simpl. apply NoDup_app. split; [by destruct HI as [_ [? _]]|].
    split; [|apply NoDup_singleton].
    intros x Hx ->%list_elem_of_singleton.
    apply list_elem_of_fmap in Hx as (t & Ht1 & Ht2).
    apply (Hne t); [done|]. by rewrite <- Ht1, Hid'.
  - simpl. intros t [Ht|Ht%list_elem_of_singleton]%elem_of_app.
    + exact (HW1 t Ht).
    + subst t. rewrite Hid', Hid2, En.
      destruct HI as [HS _]. destruct (HS _ _ Hf) as [? _].
      split; [done|]. split; [by rewrite Hthis|]. split; [by rewrite Hloaded|].
      intros s. change (statuses (setTimeout d' w1)) with (statuses w1).
        rewrite Hq, lookup_insert_eq. by intros [= <-].
  - intros id'. change (statuses (setTimeout d' w1)) with (statuses w1).
    rewrite Hq. rewrite lookup_insert. case_decide.
    + subst id'. rewrite Hst. right. left. eauto.
    + destruct (statuses w !! id'); auto.
Qed.

(** *** The timer callback *)

Lemma Waiting_take w k d :
  timers w !! k = Some d -> Inv w ->
  Inv (set_timers (delete k (timers w)) w)
  /\ (forall t, t ∈ delete k (timers w) -> _id t <> _id d)
  /\ Analysis.status (this d) = "processing"
  /\ Analysis.status (loaded d) = "processing"
  /\ (forall s, statuses w !! _id d = Some s -> s = "processing").
Proof.
  intros Hk [HS [HN HW]].
  pose proof (take_drop_middle _ _ _ Hk) as Hsplit.
  rewrite delete_take_drop.
  set (l1 := take k (timers w)) in *. set (l2 := drop (S k) (timers w)) in *.
  assert (d ∈ timers w) as Hd.
  { rewrite <- Hsplit. apply elem_of_app. right. by left. }
  assert (forall t, t ∈ (l1 ++ l2)%list -> t ∈ timers w) as Hsub.
  { intros t [Ht|Ht]%elem_of_app; rewrite <- Hsplit; apply elem_of_app;
      [by left | right; by right]. }
  rewrite <- Hsplit in HN. rewrite fmap_app, fmap_cons in HN.
  apply NoDup_app in HN as (HN1 & HN12 & HN2).
  apply NoDup_cons in HN2 as (HNd & HN2).
  destruct (HW d Hd) as (_ & ? & ? & ?).
  split; [split; [done|split]|split; [|done]].
  - simpl. rewrite fmap_app. apply NoDup_app. split; [done|]. split; [|done].
    intros x Hx1 Hx2. apply (HN12 x Hx1). by right.
  - simpl. intros t Ht. apply HW. by apply Hsub.
  - intros t [Ht|Ht]%elem_of_app Heq.
    + apply (HN12 (_id t)); [by apply list_elem_of_fmap_2|].
      rewrite Heq. by left.
    + apply HNd. rewrite <- Heq. by apply list_elem_of_fmap_2.
Qed.

Lemma onTimeout_Good k r1 r2 now w d :
  timers w !! k = Some d -> Inv w ->
  Good (Timeout k r1 r2) w
       (onTimeout r1 r2 now d (set_timers (delete k (timers w)) w)).
Proof.
  intros Hk HI.
  destruct (Waiting_take _ _ _ Hk HI) as (HI0 & Hne & Hthis & Hloaded & Hproc).
  set (w0 := set_timers (delete k (timers w)) w) in *.
  assert (statuses w0 = statuses w) as Hs0 by done.
  assert (forall s', is_Some (statuses w !! _id d) ->
            forall w', statuses w' = <[_id d := s']> (statuses w) ->
            s' = "completed" \/ s' = "failed" ->
            Transition (Timeout k r1 r2) w w') as Hedge.
  { intros s' [s Hs] w' Hw' Hs' id. rewrite Hw', lookup_insert. case_decide.
    - subst id. rewrite Hs. rewrite (Hproc _ Hs). right.
      destruct Hs' as [-> | ->]; [right; left | right; right]; eauto 10.
    - destruct (statuses w !! id); auto. }
  unfold onTimeout. rewrite updateStatus_completed.
  match goal with |- context [save true ?x w0] => set (dC := x) end.
  destruct (completedDoc_facts now
              (assign (Analysis.set_vastuAnalysis (mockResults r1 r2)) d))
    as (HCs & HCl & HCi). fold dC in HCs, HCl, HCi. simpl in HCl, HCi.
  destruct (save true dC w0) as [[d3 w1] r] eqn:Es.
  destruct (save_assign_Inv _ _ _ _ _ Es) as [HI1 Hq]; [by rewrite HCi|done|].
  destruct (save_frame _ _ _ _ _ _ Es) as (En1 & Et1 & _ & _ & Hid3).
  destruct r as [e|].
  2:{ split; [done|]. destruct Hq as [Hq|(_ & Hsome & Hq)].
      - apply Transition_same. by rewrite Hq.
      - rewrite HCi, HCs, Hs0 in *. eapply Hedge; eauto. }
  assert (statuses w1 = statuses w) as Hs1.
  { destruct Hq as [Hq|(? & _)]; [by rewrite Hq | done]. }
  rewrite updateStatus_failed.
  set (w1' := console_error "Analysis processing error:" w1).
  match goal with |- context [save true ?x w1'] => set (dF := x) end.
  destruct (save true dF w1') as [[d4 w2] r] eqn:Ef.
  assert (Inv w1') as HI1' by (eapply sameDb_Inv; [|exact HI1]; done).
  assert (_id dF = _id d) as HFi by (simpl; by rewrite Hid3, HCi).
  destruct (save_assign_Inv _ _ _ _ _ Ef) as [HI2 Hq2];
    [rewrite HFi; change (timers w1') with (timers w1); by rewrite Et1 | done |].
  split; [done|].
  change (statuses w1') with (statuses w1) in Hq2. rewrite Hs1, HFi in Hq2.
  destruct Hq2 as [Hq2|(_ & Hsome & Hq2)].
  - by apply Transition_same.
  - eapply Hedge; eauto.
Qed.

(** *** Every step *)

Lemma set_faults_sameDb f w : sameDb w (set_faults f w).
Proof. done. Qed.

(** The record of a prediction has no title: the validators refuse it and
    the route stores nothing. *)
Lemma mlPrediction_stores_nothing c processingTime w :
  (AdvancedRoutes.mlPrediction c processingTime w).2 = w.
Proof.
  unfold AdvancedRoutes.mlPrediction, create.
  destruct (Auth.protect c) as [r|user]; [done|].
  by destruct (Auth.requirePremium user).
Qed.

Lemma handle_Good now rq w o w' :
  handle now rq w = (o, w') -> Inv w -> Good rq w w'.
Proof.
  destruct rq; simpl; intros E HI.
  - destruct (getById _ _ _) eqn:H; injection E as <- <-. by eapply getById_Good.
  - destruct (createAnalysis _ _ _) eqn:H; injection E as <- <-.
    by eapply createAnalysis_Good.
  - destruct (updateAnalysis _ _ _ _) eqn:H; injection E as <- <-.
    by eapply updateAnalysis_Good.
  - destruct (deleteAnalysis _ _ _) eqn:H; injection E as <- <-.
    by eapply deleteAnalysis_Good.
  - destruct (start _ _ _ _) eqn:H; injection E as <- <-. by eapply start_Good.
  - destruct (likeAnalysis _ _ _) eqn:H; injection E as <- <-.
    by eapply likeAnalysis_Good.
  - destruct (shareAnalysis _ _ _) eqn:H; injection E as <- <-.
    by eapply shareAnalysis_Good.
  - destruct (UploadRoutes.uploadFiles _ _ _) eqn:H; injection E as <- <-.
    by eapply uploadFiles_Good.
  - pose proof (mlPrediction_stores_nothing c processingTime w) as Hw.
    destruct (AdvancedRoutes.mlPrediction _ _ _); injection E as <- <-.
    simpl in Hw. subst. by apply Good_refl.
  - destruct (timers w !! k) as [d|] eqn:Hk; injection E as <- <-.
    + by apply onTimeout_Good.
    + by apply Good_refl.
Qed.

Lemma step_Good e w : Inv w -> Good (request e) w (snd (step e w)).
Proof.
  intros HI. unfold step.
  destruct (handle _ _ _) as [o w'] eqn:E. simpl.
  apply handle_Good in E as [HI' HT]; [|by eapply sameDb_Inv].
  split; [done|]. intros id. apply HT.
Qed.

Lemma initial_Inv : Inv initial.
Proof.
  split; [|split].
  - intros id a. simpl. by rewrite lookup_empty.
  - constructor.
  - intros d Hd. by apply elem_of_nil in Hd.
Qed.

Lemma run_Inv es w : Inv w -> Inv (run es w).
Proof.
  revert w. induction es as [|e es IH]; intros w HI; [done|].
  simpl. apply IH. by apply step_Good.
Qed.

Lemma reachable_Inv w : reachable w -> Inv w.
Proof. intros [es <-]. apply run_Inv, initial_Inv. Qed.

End Invariants.

(** ** The time paths of the stored analyses *)

Section Timing.
Import Db AnalysisMethods AnalysisRoutes Server.

Lemma lifecycles_lookup w id :
  lifecycles w !! id = lifecycle <$> analyses w !! id.
Proof. unfold lifecycles. apply lookup_fmap. Qed.

Lemma lifecycle_preSave a : lifecycle (Analysis.preSave a) = lifecycle a.
Proof. reflexivity. Qed.

Lemma lifecycle_written was now stored :
  lifecycle (written was now stored)
  = (path (Analysis.status was) (Analysis.status now) (Analysis.status stored),
     path (Analysis.processingStartedAt was) (Analysis.processingStartedAt now)
          (Analysis.processingStartedAt stored),
     path (Analysis.completedAt was) (Analysis.completedAt now)
          (Analysis.completedAt stored),
     path (Analysis.processingTime was) (Analysis.processingTime now)
          (Analysis.processingTime stored)).
Proof. reflexivity. Qed.

Lemma lifecycle_written_quiet was now stored :
  lifecycle now = lifecycle was ->
  lifecycle (written was now stored) = lifecycle stored.
Proof.
  rewrite lifecycle_written. unfold lifecycle, path. intros [= -> -> -> ->].
  by rewrite !decide_True.
Qed.

(** A save changes at most the lifecycle paths of the document saved. *)
Lemma save_lifecycles v d w d' w' r :
  save v d w = (d', w', r) ->
  lifecycle (this d') = lifecycle (this d)
  /\ (lifecycles w' = lifecycles w /\ loaded d' = loaded d
      \/ (r = None
          /\ exists stored,
              analyses w !! _id d = Some stored
              /\ lifecycles w'
                 = <[_id d := lifecycle (written (loaded d) (this d) stored)]>
                     (lifecycles w))).
Proof.
  intros H%save_result.
  destruct H as [| | |stored Hval Hm Hr Hf]; simpl; auto.
  split; [done|]. right. split; [done|]. exists stored. split; [done|].
  unfold lifecycles; simpl. by rewrite fmap_insert.
Qed.

Lemma Cycle_quiet w w' :
  lifecycles w' = lifecycles w -> timers w' = timers w -> Cycle w -> Cycle w'.
Proof. unfold Cycle. by intros -> ->. Qed.

Lemma sameDb_Cycle w w' : sameDb w w' -> Cycle w -> Cycle w'.
Proof.
  intros (Ha & _ & Ht). apply Cycle_quiet; [|done].
  unfold lifecycles. by rewrite Ha.
Qed.

Lemma timers_spent w t id :
  Inv w -> t ∈ timers w -> analyses w !! id = None -> (nextId w <= id)%N ->
  _id t <> id.
Proof.
  intros [_ [_ HW]] Ht _ Hle Heq.
  destruct (HW t Ht) as (Hlt & _). lia.
Qed.

(** Replacing the lifecycle paths of one analysis no callback waits for. *)
Lemma Cycle_assign w w' id l :
  Cycle w -> Timed l ->
  (forall t, t ∈ timers w -> _id t <> id) ->
  timers w' = timers w ->
  lifecycles w' = <[id := l]> (lifecycles w) ->
  Cycle w'.
Proof.
  intros [HT HW] Hl Hne Et Es. split.
  - intros id' l'. rewrite Es, lookup_insert. case_decide.
    + by intros [= <-].
    + apply HT.
  - rewrite Et, Es. intros t Ht. destruct (HW t Ht) as (? & ? & Hs).
    repeat split; try done.
    intros l'. rewrite lookup_insert_ne by (symmetry; by apply Hne). apply Hs.
Qed.

Lemma quiet_save_Cycle v f id d w d' w' r :
  findById id w = Some d ->
  (forall a, lifecycle (f a) = lifecycle a) ->
  save v (assign f d) w = (d', w', r) ->
  Cycle w -> Cycle w'.
Proof.
  intros (Hf & Hl & Hid)%findById_Some Hq E HC.
  destruct (save_frame _ _ _ _ _ _ E) as (_ & Et & _).
  apply save_lifecycles in E as [_ [[E _]|(_ & stored & Hs & E)]].
  - by apply (Cycle_quiet w).
  - apply (Cycle_quiet w); [|done|done]. rewrite E. simpl.
    rewrite lifecycle_written_quiet by (by rewrite Hq, Hl).
    apply insert_id. rewrite lifecycles_lookup. simpl in Hs |- *. by rewrite Hs.
Qed.

Ltac by_quiet_cycle :=
  match goal with
  | H : save ?v (assign ?f ?d) ?w = _ |- _ =>
      eapply (quiet_save_Cycle v f); [eassumption | try done | exact H | assumption]
  end.

Lemma lifecycle_applyUpdate b a : lifecycle (applyUpdate b a) = lifecycle a.
Proof. unfold applyUpdate. by repeat case_match. Qed.

Lemma create_Cycle fields w w' res :
  create fields w = (w', res) ->
  lifecycle fields = ("pending", None, None, None) ->
  Inv w -> Cycle w -> Cycle w'.
Proof.
  unfold create. intros E Hp HI HC.
  destruct (negb (Analysis.validate fields)); [by injection E as <- <-|].
  destruct (refused w); injection E as <- <-;
    [eapply sameDb_Cycle; [apply answered_sameDb|done]|].
  eapply (Cycle_assign w _ (nextId w) ("pending", None, None, None));
    [done| | |done|].
  - done.
  - intros t Ht Heq. destruct HI as [_ [_ HW]].
    destruct (HW t Ht) as (Hlt & _). lia.
  - unfold lifecycles; simpl. by rewrite fmap_insert, lifecycle_preSave, Hp.
Qed.

Lemma getById_Cycle c id w o w' :
  getById c id w = (o, w') -> Cycle w -> Cycle w'.
Proof.
  unfold getById, incrementViews. intros E HC.
  destruct (findById id w) as [d|] eqn:Ef; [|by injection E as <- <-].
  repeat case_match; simplify_eq; try done.
  all: by_quiet_cycle.
Qed.

Lemma updateAnalysis_Cycle c id b w o w' :
  updateAnalysis c id b w = (o, w') -> Cycle w -> Cycle w'.
Proof.
  unfold updateAnalysis. intros E HC.
  repeat case_match; simplify_eq; try done.
  all: by_quiet_cycle; apply lifecycle_applyUpdate.
Qed.

Lemma likeAnalysis_Cycle c id w o w' :
  likeAnalysis c id w = (o, w') -> Cycle w -> Cycle w'.
Proof.
  unfold likeAnalysis, likeLookup, likeSave, like. intros E HC.
  repeat case_match; simplify_eq; try done.
  all: by_quiet_cycle.
Qed.

Lemma shareAnalysis_Cycle c id w o w' :
  shareAnalysis c id w = (o, w') -> Cycle w -> Cycle w'.
Proof.
  unfold shareAnalysis, shareLookup, shareSave, share. intros E HC.
  repeat case_match; simplify_eq; try done.
  all: by_quiet_cycle.
Qed.

Lemma deleteAnalysis_Cycle c id w o w' :
  deleteAnalysis c id w = (o, w') -> Cycle w -> Cycle w'.
Proof.
  unfold deleteAnalysis, findByIdAndDelete. intros E HC.
  repeat case_match; simplify_eq; try done.
  all: try by (eapply sameDb_Cycle; [apply answered_sameDb | done]).
  destruct HC as [HT HW]. split.
  - intros id' l. rewrite lifecycles_lookup; simpl.
    destruct (decide (id = id')) as [->|Hne].
    + by rewrite lookup_delete_eq.
    + rewrite lookup_delete_ne by done. rewrite <- lifecycles_lookup. apply HT.
  - simpl. intros t Ht. destruct (HW t Ht) as (? & ? & Hs).
    repeat split; try done. intros l. rewrite lifecycles_lookup; simpl.
    destruct (decide (id = _id t)) as [->|Hne].
    + by rewrite lookup_delete_eq.
    + rewrite lookup_delete_ne by done. rewrite <- lifecycles_lookup. apply Hs.
Qed.

Lemma createAnalysis_Cycle c b w o w' :
  createAnalysis c b w = (o, w') -> Inv w -> Cycle w -> Cycle w'.
Proof.
  unfold createAnalysis. intros E HI HC.
  repeat case_match; simplify_eq; try done.
  all: by eapply create_Cycle.
Qed.

Lemma uploadFiles_Cycle c req w o w' :
  UploadRoutes.uploadFiles c req w = (o, w') -> Inv w -> Cycle w -> Cycle w'.
Proof.
  unfold UploadRoutes.uploadFiles. intros E HI HC.
  destruct (Auth.protect c); [by injection E as <- <-|].
  destruct (negb _); [by injection E as <- <-|].
  case_bool_decide; [by injection E as <- <-|].
  destruct (UploadRoutes.uploadEach _ _ _) as [[w1 up] r] eqn:Eu.
  apply uploadEach_sameDb in Eu.
  assert (Cycle w1) as HC1 by (by eapply sameDb_Cycle).
  assert (Inv w1) as HI1 by (by eapply sameDb_Inv).
  destruct r.
  { injection E as <- <-. eapply sameDb_Cycle; [apply cleanup_sameDb | done]. }
  destruct (create _ w1) as [w2 res] eqn:Ec.
  assert (Cycle w2) as HC2 by (by eapply create_Cycle).
  destruct res; injection E as <- <-; [done|].
  eapply sameDb_Cycle; [apply cleanup_sameDb | done].
Qed.

Lemma start_Cycle c id now w o w' :
  start c id now w = (o, w') -> Cycle w -> Cycle w'.
Proof.
  unfold start. intros E HC.
  destruct (startLookup c id w) as [res|d] eqn:El; [by injection E as <- <-|].
  apply startLookup_inr in El as (Hf & Hp & _).
  apply findById_Some in Hf as (Hf & Hl & Hid).
  assert (lifecycles w !! id = Some ("pending", None, None, None)) as Hst.
  { rewrite lifecycles_lookup, Hf; simpl. destruct HC as [HT _].
    specialize (HT id (lifecycle (this d))).
    rewrite lifecycles_lookup, Hf in HT. specialize (HT eq_refl).
    unfold lifecycle in *. rewrite Hp in *. simpl in HT.
    destruct (Analysis.processingStartedAt (this d)),
             (Analysis.completedAt (this d)); try done;
      destruct HT as [HT1 HT2]; try done; try (by destruct HT1).
    by rewrite HT2. }
  assert (forall t, t ∈ timers w -> _id t <> id) as Hne.
  { intros t Ht Heq. destruct HC as [_ HW].
    destruct (HW t Ht) as (_ & [s Hs] & Hl'). rewrite Heq in Hl'.
    specialize (Hl' _ Hst). by rewrite Hs in Hl'. }
  unfold startProcessing in E. rewrite updateStatus_processing in E.
  match type of E with context [save true ?x w] => set (d2 := x) in * end.
  destruct (save true d2 w) as [[d' w1] r] eqn:Es.
  destruct (save_frame _ _ _ _ _ _ Es) as (_ & Et & _ & _ & Hid').
  assert (lifecycle (this d2) = ("processing", Some now, None, None)) as Hl2.
  { pose proof Hst as Hld. rewrite lifecycles_lookup, Hf in Hld.
    simpl in Hld. injection Hld as _ _ Hc Ht'.
    unfold lifecycle; simpl. by rewrite Hc, Ht'. }
  destruct (save_lifecycles _ _ _ _ _ _ Es)
    as [Hthis [[Hq Hload]|(-> & stored & Hs & Hq)]].
  - (* nothing was written *)
    assert (Cycle w1) as HC1 by (by apply (Cycle_quiet w)).
    destruct r; injection E as <- <-; [done|].
    exfalso. apply save_status_assigned in Es as (st & _ & _ & _ & -> & _).
    + simpl in Hload. apply (f_equal Analysis.status) in Hload.
      simpl in Hload. rewrite Hl, Hp in Hload. done.
    + simpl. rewrite Hl, Hp. done.
  - injection E as <- <-.
    change (_id d2) with (_id d) in *. rewrite Hid in *.
    change (loaded d2) with (loaded d) in Hq. rewrite Hl in Hq.
    rewrite Hf in Hs. injection Hs as <-.
    rewrite written_same, Hl2 in Hq.
    assert (Cycle w1) as [HT1 HW1].
    { eapply (Cycle_assign w _ id); [done| |done|done|exact Hq]. done. }
    split; [done|]. simpl.
    intros t [Ht|Ht%list_elem_of_singleton]%elem_of_app; [by apply HW1|].
    subst t. apply save_status_assigned in Es as (st & _ & _ & _ & Hd' & _);
      [|simpl; rewrite Hl, Hp; done].
    rewrite Hd'. simpl. split; [done|]. split; [by eexists|].
    intros l. change (lifecycles (setTimeout _ w1)) with (lifecycles w1).
    rewrite Hid, Hq, lookup_insert_eq. intros [= <-]. by rewrite <- Hl2.
Qed.

(** *** The timer callback *)

Lemma lifecycle_written_finished was now stored s st c p :
  lifecycle was = ("processing", Some s, None, None) ->
  lifecycle stored = ("processing", Some s, None, None) ->
  lifecycle now = (st, Some s, Some c, Some p) ->
  st <> "processing" ->
  lifecycle (written was now stored) = (st, Some s, Some c, Some p).
Proof.
  rewrite lifecycle_written. unfold lifecycle, path.
  intros [= -> -> -> ->] [= -> -> -> ->] [= -> -> -> ->] Hst.
  rewrite decide_False by done. rewrite decide_True by done.
  by rewrite !decide_False.
Qed.

Lemma lifecycle_completedDoc now d s :
  lifecycle (this d) = ("processing", Some s, None, None) ->
  lifecycle (this (completedDoc now d))
  = ("completed", Some s, Some now, Some (Js.round_div_1000 (now - s))).
Proof.
  unfold lifecycle, completedDoc. simpl. intros [= _ Hs _ _].
  rewrite Hs. simpl. by rewrite Hs.
Qed.

(** A validated save, by the callback, of the document it closes over,
    with a status that ends the processing. *)
Lemma finishing_save d w d' w' r s st c p :
  save true d w = (d', w', r) ->
  Cycle w ->
  (forall t, t ∈ timers w -> _id t <> _id d) ->
  lifecycle (loaded d) = ("processing", Some s, None, None) ->
  (forall l, lifecycles w !! _id d = Some l -> l = ("processing", Some s, None, None)) ->
  lifecycle (this d) = (st, Some s, Some c, Some p) ->
  (st = "completed" \/ st = "failed") ->
  p = Js.round_div_1000 (c - s) ->
  Cycle w'
  /\ lifecycle (this d') = lifecycle (this d)
  /\ (r = None
      \/ (loaded d' = loaded d /\ _id d' = _id d
          /\ lifecycles w' = lifecycles w /\ timers w' = timers w)).
Proof.
  intros E HC Hne Hload Hstored Hthis Hst Hp.
  destruct (save_frame _ _ _ _ _ _ E) as (_ & Et & _ & _ & Hid).
  destruct (save_lifecycles _ _ _ _ _ _ E)
    as [Hthis' [[Hq Hl]|(-> & stored & Hs & Hq)]].
  - split; [by apply (Cycle_quiet w)|]. split; [done|]. right. done.
  - split; [|by split; [|left]].
    assert (lifecycle stored = ("processing", Some s, None, None)) as Hls.
    { apply Hstored. by rewrite lifecycles_lookup, Hs. }
    rewrite (lifecycle_written_finished _ _ _ s st c p) in Hq; try done.
    2:{ by destruct Hst as [-> | ->]. }
    eapply (Cycle_assign w _ (_id d)); [done| |done|done|exact Hq].
    simpl. split; [done|]. by rewrite Hp.
Qed.

Lemma onTimeout_Cycle k r1 r2 now w d :
  timers w !! k = Some d -> Inv w -> Cycle w ->
  Cycle (onTimeout r1 r2 now d (set_timers (delete k (timers w)) w)).
Proof.
  intros Hk HI HC.
  destruct (Waiting_take _ _ _ Hk HI) as (_ & Hne & _).
  assert (d ∈ timers w) as Hd by (by eapply list_elem_of_lookup_2).
  pose proof HC as [HT HW].
  destruct (HW d Hd) as (Hload & [s Hs] & Hstored).
  rewrite Hs in Hload, Hstored.
  set (w0 := set_timers (delete k (timers w)) w) in *.
  assert (Cycle w0) as HC0.
  { split; [done|]. simpl. intros t Ht. apply HW.
    rewrite delete_take_drop in Ht. rewrite <- (take_drop_middle _ _ _ Hk).
    apply elem_of_app in Ht as [Ht|Ht]; apply elem_of_app;
      [by left | right; by right]. }
  unfold onTimeout. rewrite updateStatus_completed.
  match goal with |- context [save true ?x w0] => set (dC := x) end.
  assert (lifecycle (this dC)
          = ("completed", Some s, Some now, Some (Js.round_div_1000 (now - s))))
    as HCl by (by apply lifecycle_completedDoc).
  destruct (completedDoc_facts now
              (assign (Analysis.set_vastuAnalysis (mockResults r1 r2)) d))
    as (_ & HCload & HCi). fold dC in HCload, HCi. simpl in HCload, HCi.
  destruct (save true dC w0) as [[d3 w1] r] eqn:Es.
  destruct (finishing_save _ _ _ _ _ s "completed" now
              (Js.round_div_1000 (now - s)) Es HC0)
    as (HC1 & Hthis3 & Hrest); try done; try (by rewrite HCi);
    try (by rewrite HCload); [by left|].
  destruct r as [e|]; [|done].
  destruct Hrest as [|(Hl3 & Hid3 & Hq1 & Et1)]; [done|].
  rewrite updateStatus_failed.
  set (w1' := console_error "Analysis processing error:" w1).
  match goal with |- context [save true ?x w1'] => set (dF := x) end.
  destruct (save true dF w1') as [[d4 w2] r] eqn:Ef.
  assert (Cycle w1') as HC1' by (eapply sameDb_Cycle; [|exact HC1]; done).
  destruct (finishing_save _ _ _ _ _ s "failed" now
              (Js.round_div_1000 (now - s)) Ef HC1')
    as (HC2 & _); try done.
  - change (timers w1') with (timers w1). rewrite Et1.
    change (_id dF) with (_id d3). rewrite Hid3, HCi. done.
  - change (loaded dF) with (loaded d3). by rewrite Hl3, HCload.
  - change (lifecycles w1') with (lifecycles w1). rewrite Hq1.
    change (_id dF) with (_id d3). rewrite Hid3, HCi. done.
  - unfold lifecycle in *. simpl. by injection Hthis3 as _ -> -> ->;
      injection HCl as _ -> -> ->.
  - by right.
Qed.

Lemma handle_Cycle now rq w o w' :
  handle now rq w = (o, w') -> Inv w -> Cycle w -> Cycle w'.
Proof.
  destruct rq; simpl; intros E HI HC.
  - destruct (getById _ _ _) eqn:H; injection E as <- <-. by eapply getById_Cycle.
  - destruct (createAnalysis _ _ _) eqn:H; injection E as <- <-.
    by eapply createAnalysis_Cycle.
  - destruct (updateAnalysis _ _ _ _) eqn:H; injection E as <- <-.
    by eapply updateAnalysis_Cycle.
  - destruct (deleteAnalysis _ _ _) eqn:H; injection E as <- <-.
    by eapply deleteAnalysis_Cycle.
  - destruct (start _ _ _ _) eqn:H; injection E as <- <-. by eapply start_Cycle.
  - destruct (likeAnalysis _ _ _) eqn:H; injection E as <- <-.
    by eapply likeAnalysis_Cycle.
  - destruct (shareAnalysis _ _ _) eqn:H; injection E as <- <-.
    by eapply shareAnalysis_Cycle.
  - destruct (UploadRoutes.uploadFiles _ _ _) eqn:H; injection E as <- <-.
    by eapply uploadFiles_Cycle.
  - pose proof (mlPrediction_stores_nothing c processingTime w) as Hw.
    destruct (AdvancedRoutes.mlPrediction _ _ _); injection E as <- <-.
    simpl in Hw. by subst.
  - destruct (timers w !! k) as [d|] eqn:Hk; injection E as <- <-; [|done].
    by apply onTimeout_Cycle.
Qed.

Lemma run_Cycle es : forall w, Inv w -> Cycle w -> Cycle (run es w).
Proof.
  induction es as [|e es IH]; intros w HI HC; [done|].
  simpl. apply IH; [by apply step_Good|].
  unfold step. destruct (handle _ _ _) as [o w'] eqn:E. simpl.
  eapply handle_Cycle; [exact E | by eapply sameDb_Inv | by eapply sameDb_Cycle].
Qed.

Lemma reachable_Cycle w : reachable w -> Cycle w.
Proof.
  intros [es <-]. apply run_Cycle; [apply initial_Inv|].
  split.
  - intros id l. by rewrite lifecycles_lookup; simpl; rewrite lookup_empty.
  - intros t Ht. by apply elem_of_nil in Ht.
Qed.

End Timing.

(** ** The analysis lifecycle *)

Section Lifecycle.
Import Db AnalysisMethods AnalysisRoutes Server.

Lemma validate_status a :
  Analysis.validate a = true -> Analysis.status a ∈ Analysis.statusEnum.
Proof.
  unfold Analysis.validate. rewrite !andb_true_iff. intros (_ & H).
  by apply bool_decide_eq_true in H.
Qed.

Lemma start_rejected_unless_pending c id now w a :
  analyses w !! id = Some a -> Analysis.status a <> "pending" ->
  exists res, start c id now w = (Sent res, w) /\ success res = false.
Proof.
  intros Ha Hs. unfold start.
  destruct (startLookup c id w) as [res|d] eqn:El.
  - revert El. unfold startLookup, deny, fail_with, Auth.protect, Auth.requirePremium.
    intros El. repeat case_match; simplify_eq; eexists; split; done.
  - apply startLookup_inr in El as ((Hf & _ & _)%findById_Some & Hp & _).
    congruence.
Qed.

(** C1, amended.  While the requests and the timer callbacks are handled
    one at a time, each to its end before the next begins (the worlds of
    [reachable], the steps of [step]): the status of a stored analysis is
    one of pending, processing, completed and failed; a step of the server
    changes it only from pending to processing (the start request), from
    processing to completed or from processing to failed (the timer
    callback); an analysis appears with status pending; a start request on
    an analysis that is not pending is rejected and leaves the world as it
    is.  The guard is the start handler's check of the document it has
    read; [updateStatus] itself refuses nothing. *)
Theorem analysis_status_transitions (w : World) (Hw : reachable w) :
  (forall id a, analyses w !! id = Some a ->
     Analysis.status a ∈ Analysis.statusEnum)
  /\ (forall e id a a',
        analyses w !! id = Some a ->
        analyses (snd (step e w)) !! id = Some a' ->
        Analysis.status a' = Analysis.status a
        \/ legal (request e) (Analysis.status a) (Analysis.status a'))
  /\ (forall e id a',
        analyses w !! id = None ->
        analyses (snd (step e w)) !! id = Some a' ->
        Analysis.status a' = "pending")
  /\ (forall c id now a,
        analyses w !! id = Some a -> Analysis.status a <> "pending" ->
        exists res, start c id now w = (Sent res, w) /\ success res = false).
Proof.
  pose proof (reachable_Inv _ Hw) as HI.
  split; [|split; [|split]].
  - intros id a Ha. destruct HI as [HS _].
    destruct (HS _ _ Ha) as (_ & Hv & _). by apply validate_status.
  - intros e id a a' Ha Ha'.
    destruct (step_Good e w HI) as [_ HT]. specialize (HT id).
    by rewrite !statuses_lookup, Ha, Ha' in HT.
  - intros e id a' Ha Ha'.
    destruct (step_Good e w HI) as [_ HT]. specialize (HT id).
    by rewrite !statuses_lookup, Ha, Ha' in HT.
  - intros c id now a. apply start_rejected_unless_pending.
Qed.

(** C1, as stated, fails once the read and the write of a handler are
    apart.  A start request of Alice reads analysis 0 while it is pending;
    before it writes, another start request and its callback run to their
    end and leave the analysis completed; the first request then saves the
    document it read: it is answered 200 and the stored status goes from
    completed to processing, the completedAt of the completion still set.
    And of two start requests that both read the analysis pending before
    either writes, two callbacks are left: the first completes the
    analysis; the second, its first save refused and its second accepted,
    takes the stored status from completed to failed. *)
Lemma overlapped_writes_leave_the_edges :
  (exists dA resA wA a,
      startLookup Examples.asAlice 0%N Examples.created = inr dA
      /\ Examples.completed
         = run [mkEvent 0 [] (Create Examples.asAlice Examples.myHome);
                mkEvent 1000 [] (Start Examples.asAlice 0%N);
                mkEvent 6400 [] (Timeout 0 5 5)] initial
      /\ statuses Examples.completed !! 0%N = Some "completed"
      /\ startProcessing 7000 dA Examples.completed = (Sent resA, wA)
      /\ statusCode resA = 200
      /\ analyses wA !! 0%N = Some a
      /\ Analysis.status a = "processing"
      /\ Analysis.completedAt a = Some 6400
      /\ ~ legal (Start Examples.asAlice 0%N) "completed" (Analysis.status a))
  /\ (exists d res1 res2 w1 w2 a,
        startLookup Examples.asAlice 0%N Examples.created = inr d
        /\ startProcessing 1000 d Examples.created = (Sent res1, w1)
        /\ startProcessing 1001 d w1 = (Sent res2, Examples.startedTwice)
        /\ statusCode res1 = 200 /\ statusCode res2 = 200
        /\ w2 = snd (step (mkEvent 6000 [] (Timeout 0 5 5)) Examples.startedTwice)
        /\ statuses w2 !! 0%N = Some "completed"
        /\ analyses (snd (step (mkEvent 6001 [true; false] (Timeout 0 7 7)) w2)) !! 0%N
           = Some a
        /\ Analysis.status a = "failed"
        /\ ~ legal (Timeout 0 7 7) "completed" (Analysis.status a)).
Proof.
  split.
  - do 4 eexists. split; [by vm_compute|]. split; [by vm_compute|].
    split; [by vm_compute|]. split; [by vm_compute|].
    split; [by vm_compute|]. split; [by vm_compute|].
    split; [by vm_compute|]. split; [by vm_compute|].
    intros [(H & _)|[(H & _)|(H & _)]]; discriminate H.
  - do 6 eexists. split; [by vm_compute|]. split; [by vm_compute|].
    split; [by vm_compute|]. split; [by vm_compute|].
    split; [by vm_compute|]. split; [reflexivity|].
    split; [by vm_compute|]. split; [by vm_compute|].
    split; [by vm_compute|].
    intros [(H & _)|[(H & _)|(H & _)]]; discriminate H.
Qed.

(** C1, amended, at the world in which Alice has started her analysis: its
    status is of the enumeration, and a second start request is rejected. *)
Lemma analysis_status_transitions_witness :
  reachable Examples.started
  /\ (forall id a, analyses Examples.started !! id = Some a ->
        Analysis.status a ∈ Analysis.statusEnum)
  /\ exists res,
       start Examples.asAlice 0%N 2000 Examples.started = (Sent res, Examples.started)
       /\ success res = false.
Proof.
  assert (reachable Examples.started) as Hw.
  { exists [mkEvent 0 [] (Create Examples.asAlice Examples.myHome);
            mkEvent 1000 [] (Start Examples.asAlice 0%N)]. reflexivity. }
  split; [done|].
  destruct (analysis_status_transitions _ Hw) as (Henum & _ & _ & Hrej).
  split; [done|]. eapply Hrej; by vm_compute.
Defined.

End Lifecycle.

(** ** The start request *)

Section Start.
Import Db AnalysisMethods AnalysisRoutes Server.

Lemma processing_valid now a :
  Analysis.validate a = true -> Analysis.validate (processing now a) = true.
Proof.
  unfold Analysis.validate, processing; simpl.
  rewrite !andb_true_iff. intros (? & _). done.
Qed.

Lemma processing_fixed now a :
  Analysis.preSave a = a -> Analysis.preSave (processing now a) = processing now a.
Proof. rewrite !preSave_fixed_iff. done. Qed.

Lemma start_accepted w c user id now a :
  Auth.protect c = inr user -> Auth.isPremium user = true ->
  analyses w !! id = Some a -> otherUser a user = false ->
  Analysis.status a = "pending" ->
  Analysis.validate a = true -> Analysis.preSave a = a ->
  refused w = false ->
  start c id now w
  = (ok_with 200 "Analysis processing started"
       (AnalysisData (mkDoc id (processing now a) (processing now a))),
     setTimeout (mkDoc id (processing now a) (processing now a))
       (set_analyses (<[id := processing now a]> (analyses w)) (answered w))).
Proof.
  intros Hc Hprem Ha Hown Hp Hv Hfix Hr.
  unfold start, startLookup, Auth.requirePremium, findById.
  rewrite Hc, Hprem, Ha. simpl. rewrite Hown, Hp. simpl.
  unfold startProcessing. rewrite updateStatus_processing.
  unfold save, assign. simpl. fold (processing now a).
  rewrite processing_valid by done. simpl.
  rewrite processing_fixed by done.
  case_decide as Hm.
  { apply (f_equal Analysis.status) in Hm. simpl in Hm. congruence. }
  rewrite Hr, Ha. by rewrite written_same.
Qed.

(** C2, amended.  A start request is answered in this order: without a
    valid token of an active account, 401; for an account without a
    premium subscription, 403; when no analysis has the id, 404; when the
    caller is not the owner, 403; when the status is not pending, 400
    "already being processed or completed"; all of these leave the world
    as it is.  Otherwise, the database accepting the write, the stored
    analysis gets status processing and processingStartedAt [now], the
    response carries the analysis in processing, and the scoring is left
    waiting in the timer queue. *)
Theorem start_outcomes (w : World) (Hw : reachable w) :
  forall c id now,
    match Auth.protect c with
    | inl r => start c id now w = (deny r, w)
    | inr user =>
        if negb (Auth.isPremium user)
        then start c id now w
             = (fail_with 403 "Premium subscription required to access this feature.", w)
        else
          match analyses w !! id with
          | None => start c id now w = (fail_with 404 "Analysis not found", w)
          | Some a =>
              if otherUser a user
              then start c id now w = (fail_with 403 "Access denied", w)
              else if bool_decide (Analysis.status a = "pending")
              then
                refused w = false ->
                start c id now w
                = (ok_with 200 "Analysis processing started"
                     (AnalysisData (mkDoc id (processing now a) (processing now a))),
                   setTimeout (mkDoc id (processing now a) (processing now a))
                     (set_analyses (<[id := processing now a]> (analyses w))
                                   (answered w)))
              else start c id now w
                   = (fail_with 400
                        "Analysis is already being processed or completed", w)
          end
    end.
Proof.
  intros c id now.
  destruct (Auth.protect c) as [r|user] eqn:Hc.
  { unfold start, startLookup. by rewrite Hc. }
  destruct (negb (Auth.isPremium user)) eqn:Hprem.
  { unfold start, startLookup, Auth.requirePremium. by rewrite Hc, Hprem. }
  destruct (analyses w !! id) as [a|] eqn:Ha.
  2:{ unfold start, startLookup, Auth.requirePremium, findById.
      by rewrite Hc, Hprem, Ha. }
  destruct (otherUser a user) eqn:Hown.
  { unfold start, startLookup, Auth.requirePremium, findById.
    rewrite Hc, Hprem, Ha. simpl. by rewrite Hown. }
  case_bool_decide as Hp.
  2:{ unfold start, startLookup, Auth.requirePremium, findById.
      rewrite Hc, Hprem, Ha. simpl. rewrite Hown.
      by rewrite bool_decide_eq_false_2. }
  intros Hr.
  destruct (reachable_Inv _ Hw) as [HS _].
  destruct (HS _ _ Ha) as (_ & Hv & Hfix).
  apply negb_false_iff in Hprem.
  by eapply start_accepted.
Qed.

(** C2, as stated, fails: Bob owns the pending analysis 0 but has no
    premium subscription; his start request is answered 403 and the
    analysis stays pending. *)
Lemma start_free_owner_refused :
  reachable Examples.createdByBob
  /\ (exists a, analyses Examples.createdByBob !! 0%N = Some a
                /\ Analysis.user a = Auth.id Examples.bob
                /\ Analysis.status a = "pending")
  /\ start Examples.asBob 0%N 1000 Examples.createdByBob
     = (fail_with 403 "Premium subscription required to access this feature.",
        Examples.createdByBob).
Proof.
  split; [by eexists|]. split; [|by vm_compute].
  eexists. split; [by vm_compute|]. by split.
Qed.

(** C2, amended, at the start request of Alice, premium and owner, on
    her pending analysis. *)
Lemma start_outcomes_witness :
  reachable Examples.created
  /\ start Examples.asAlice 0%N 1000 Examples.created
     = (ok_with 200 "Analysis processing started"
          (AnalysisData
             (mkDoc 0%N (processing 1000 (Examples.newHome))
                        (processing 1000 (Examples.newHome)))),
        Examples.started).
Proof.
  split; [by eexists|].
  pose proof (start_outcomes Examples.created (ex_intro _ _ eq_refl)
                Examples.asAlice 0%N 1000) as H.
  vm_compute in H. vm_compute. apply H. reflexivity.
Defined.

End Start.

(** ** Completion, failure and the processing time *)

Section Completion.
Import Db AnalysisMethods AnalysisRoutes Server.

(** C3, at the input where the code departs from it.  Analysis 0 is in
    processing since time 1000; its timer callback runs at time 6400; the
    database refuses the save of [updateStatus('completed')] and accepts
    the save of [updateStatus('failed')].  The stored analysis is then
    failed, and it carries the completedAt, the processingTime and the
    result payload of the completion that did not go through. *)
Theorem failed_completion_keeps_completedAt :
  let w' := snd (step (mkEvent 6400 [true; false] (Timeout 0 5 5)) Examples.started) in
  exists a,
    analyses w' !! 0%N = Some a
    /\ Analysis.status a = "failed"
    /\ Analysis.completedAt a = Some 6400
    /\ Analysis.processingStartedAt a = Some 1000
    /\ Analysis.processingTime a = Some 5
    /\ Analysis.vastuAnalysis a = mockResults 5 5
    /\ console w' = ["Analysis processing error:"].
Proof. eexists. split; [by vm_compute|]. by vm_compute. Qed.

(** The same callback with every write accepted: completed, with
    completedAt and the rounded processing time. *)
Lemma completion_sets_completedAt :
  let w' := snd (step (mkEvent 6400 [] (Timeout 0 5 5)) Examples.started) in
  exists a,
    analyses w' !! 0%N = Some a
    /\ Analysis.status a = "completed"
    /\ Analysis.completedAt a = Some 6400
    /\ Analysis.processingTime a = Some 5
    /\ Analysis.processingDuration a = Some 5.
Proof. eexists. split; [by vm_compute|]. by vm_compute. Qed.

(** [updateStatus] by itself: completedAt is assigned exactly by the
    completed branch, and the processing time is the rounded difference. *)
Lemma updateStatus_assigns status now d w :
  let d' := (updateStatus status now d w).1.1 in
  Analysis.status (this d') = status
  /\ Analysis.completedAt (this d')
     = (if bool_decide (status = "completed") then Some now
        else Analysis.completedAt (this d))
  /\ Analysis.processingStartedAt (this d')
     = (if bool_decide (status = "processing") then Some now
        else Analysis.processingStartedAt (this d))
  /\ (status = "completed" ->
      forall started, Analysis.processingStartedAt (this d) = Some started ->
      Analysis.processingTime (this d') = Some (Js.round_div_1000 (now - started))).
Proof.
  unfold updateStatus.
  match goal with |- context [save true ?x w] => set (d1 := x) end.
  destruct (save true d1 w) as [[d' w'] r] eqn:E. simpl.
  assert (this d' = this d1 \/ this d' = Analysis.preSave (this d1)) as Hd.
  { apply save_result in E. destruct E; auto. }
  assert (Analysis.status (this d') = Analysis.status (this d1)
          /\ Analysis.completedAt (this d') = Analysis.completedAt (this d1)
          /\ Analysis.processingStartedAt (this d')
             = Analysis.processingStartedAt (this d1)
          /\ Analysis.processingTime (this d') = Analysis.processingTime (this d1))
    as (-> & -> & -> & ->).
  { destruct Hd as [-> | ->]; done. }
  subst d1. repeat case_bool_decide; subst; try done; simpl.
  clear. destruct (Analysis.processingStartedAt (this d)) eqn:Hs; simpl;
    repeat split; try done; congruence.
Qed.

(** What holds of the time paths in every world the server reaches:
    completedAt is set exactly on the analyses that are completed or
    failed, a failed analysis carrying both time stamps; and whenever both
    time stamps are set, processingTime is their rounded difference. *)
Lemma stored_time_paths w id a :
  reachable w -> analyses w !! id = Some a ->
  (is_Some (Analysis.completedAt a)
   <-> Analysis.status a = "completed" \/ Analysis.status a = "failed")
  /\ (forall s c,
        Analysis.processingStartedAt a = Some s -> Analysis.completedAt a = Some c ->
        Analysis.processingTime a = Some (Js.round_div_1000 (c - s)))
  /\ (Analysis.status a = "failed" ->
      is_Some (Analysis.completedAt a) /\ is_Some (Analysis.processingStartedAt a)).
Proof.
  intros Hw Ha. destruct (reachable_Cycle _ Hw) as [HT _].
  specialize (HT id (lifecycle a)). rewrite lifecycles_lookup, Ha in HT.
  specialize (HT eq_refl). unfold Timed, lifecycle in HT.
  destruct (Analysis.processingStartedAt a) as [s|],
           (Analysis.completedAt a) as [c|]; try done; destruct HT as [Hs Hp].
  - split; [|split].
    + split; [done|]. by eexists.
    + by intros ? ? [= <-] [= <-].
    + intros _. split; by eexists.
  - split; [|split].
    + split; [by intros [? ?]|]. rewrite Hs. by intros [|].
    + done.
    + by rewrite Hs.
  - split; [|split].
    + split; [by intros [? ?]|]. rewrite Hs. by intros [|].
    + done.
    + by rewrite Hs.
Qed.

Lemma round_div_1000_nonneg d : 0 <= d -> 0 <= Js.round_div_1000 d.
Proof. intros. unfold Js.round_div_1000. apply Z.div_pos; lia. Qed.

End Completion.

(** ** Areas *)

Section Areas.
Import Db AnalysisRoutes Server.

Lemma fixed_areas a :
  Analysis.preSave a = a ->
  Analysis.planArea (FloorPlan.dimensions (Analysis.floorPlan a))
  = FloorPlan.dimensions (Analysis.floorPlan a)
  /\ forall r, r ∈ FloorPlan.rooms (Analysis.floorPlan a) ->
               Analysis.roomArea r = r.
Proof.
  rewrite preSave_fixed_iff. unfold withAreas.
  destruct (Analysis.floorPlan a) as [dims o rooms]; simpl.
  intros [= Hd Hr]. split; [done|].
  clear Hd. induction rooms as [|r rs IH]; intros x Hx.
  - by apply elem_of_nil in Hx.
  - injection Hr as Hr1 Hr2. apply elem_of_cons in Hx as [->|Hx]; auto.
Qed.

(** A save that succeeds, of a document whose loaded values are the stored
    ones: the document in memory and the stored analysis are the
    document's values after the hook. *)
Lemma save_hooked v d w d' w' :
  save v d w = (d', w', None) ->
  analyses w !! _id d = Some (loaded d) ->
  this d' = Analysis.preSave (this d)
  /\ analyses w' !! _id d = Some (Analysis.preSave (this d)).
Proof.
  intros H%save_result Hl.
  inversion H as [ | Hv Hm | | stored Hv Hm Hr Hf]; subst; simpl.
  - split; [done|]. by rewrite Hm.
  - split; [done|]. rewrite lookup_insert_eq. f_equal.
    assert (stored = loaded d) as -> by congruence.
    apply written_same.
Qed.

(** C4, amended.  The pre-save hook sets the plan area and every room area
    to length x width when both are given and not zero, whatever area the
    caller supplied, and leaves the area as it is otherwise; every
    analysis the server stores has been through the hook, so its areas are
    the products whenever both length and width are given and not zero;
    and the hook runs on every save: after a save that succeeds, with or
    without validation, of a document loaded from the collection, the
    document in memory and the stored analysis carry the plan dimensions
    and the rooms of the document as the hook computes them, whatever
    areas the document or the collection held before. *)
Theorem areas_computed_by_hook :
  (forall d : Dimensions.t,
      Dimensions.area (Analysis.planArea d)
      = if Analysis.bothGiven (Dimensions.length d) (Dimensions.width d)
        then Analysis.product (Dimensions.length d) (Dimensions.width d)
        else Dimensions.area d)
  /\ (forall r : Room.t,
        let d := Room.dimensions r in
        RoomDimensions.area (Room.dimensions (Analysis.roomArea r))
        = if Analysis.bothGiven (RoomDimensions.length d) (RoomDimensions.width d)
          then Analysis.product (RoomDimensions.length d) (RoomDimensions.width d)
          else RoomDimensions.area d)
  /\ (forall w id a,
        reachable w -> analyses w !! id = Some a ->
        let d := FloorPlan.dimensions (Analysis.floorPlan a) in
        (Analysis.bothGiven (Dimensions.length d) (Dimensions.width d) = true ->
         Dimensions.area d
         = Analysis.product (Dimensions.length d) (Dimensions.width d))
        /\ forall r, r ∈ FloorPlan.rooms (Analysis.floorPlan a) ->
             let rd := Room.dimensions r in
             Analysis.bothGiven (RoomDimensions.length rd) (RoomDimensions.width rd) = true ->
             RoomDimensions.area rd
             = Analysis.product (RoomDimensions.length rd) (RoomDimensions.width rd))
  /\ (forall v d w d' w',
        save v d w = (d', w', None) ->
        analyses w !! _id d = Some (loaded d) ->
        exists a',
          this d' = a' /\ analyses w' !! _id d = Some a'
          /\ FloorPlan.dimensions (Analysis.floorPlan a')
             = Analysis.planArea (FloorPlan.dimensions (Analysis.floorPlan (this d)))
          /\ FloorPlan.rooms (Analysis.floorPlan a')
             = map Analysis.roomArea (FloorPlan.rooms (Analysis.floorPlan (this d)))).
Proof.
  split; [|split; [|split]].
  - intros d. unfold Analysis.planArea, Analysis.bothGiven. by case_match.
  - intros r d. unfold Analysis.roomArea, Analysis.bothGiven. subst d. by case_match.
  - intros w id a Hw Ha.
    destruct (reachable_Inv _ Hw) as [HS _].
    destruct (HS _ _ Ha) as (_ & _ & Hfix).
    apply fixed_areas in Hfix as [Hd Hr]. split.
    + intros Hb. rewrite <- Hd at 1. unfold Analysis.planArea.
      unfold Analysis.bothGiven in Hb. by rewrite Hb.
    + intros r Hin rd Hb. subst rd. rewrite <- (Hr r Hin) at 1.
      unfold Analysis.roomArea. unfold Analysis.bothGiven in Hb. by rewrite Hb.
  - intros v d w d' w' E Hl.
    destruct (save_hooked _ _ _ _ _ E Hl) as [Hd Hs].
    exists (Analysis.preSave (this d)). done.
Qed.

(** C4, as stated, fails: Alice creates an analysis whose plan has an area
    of 500 but no length or width, and a room of length 0, width 5 and
    area 99.  Both areas are stored as supplied: the room's area is not
    the product 0, and the plan's area was set by the caller alone. *)
Lemma supplied_areas_are_stored :
  let w := run [mkEvent 0 [] (Create Examples.asAlice Examples.ownAreas)] initial in
  exists a r,
    analyses w !! 0%N = Some a
    /\ FloorPlan.rooms (Analysis.floorPlan a) = [r]
    /\ RoomDimensions.length (Room.dimensions r) = Some 0
    /\ RoomDimensions.width (Room.dimensions r) = Some 5
    /\ RoomDimensions.area (Room.dimensions r) = Some 99
    /\ RoomDimensions.area (Room.dimensions r) <> Some (0 * 5)
    /\ Dimensions.length (FloorPlan.dimensions (Analysis.floorPlan a)) = None
    /\ Dimensions.area (FloorPlan.dimensions (Analysis.floorPlan a)) = Some 500.
Proof. do 2 eexists. split; [by vm_compute|]. by vm_compute. Qed.

(** C4, amended, at the stored villa: 10 x 20 gives the plan area 200,
    not the 7 the caller supplied, and 3 x 4 gives the room area 12.  And
    at the villa stored with the plan area 7: the save of one more view,
    which does not validate, stores the plan area 200. *)
Lemma areas_computed_by_hook_witness :
  reachable Examples.withVilla
  /\ (exists a,
        analyses Examples.withVilla !! 0%N = Some a
        /\ Dimensions.area (FloorPlan.dimensions (Analysis.floorPlan a)) = Some 200
        /\ forall r, r ∈ FloorPlan.rooms (Analysis.floorPlan a) ->
             RoomDimensions.area (Room.dimensions r) = Some 12)
  /\ exists a d' w' a',
       analyses Examples.miscomputed !! 0%N = Some a
       /\ Dimensions.area (FloorPlan.dimensions (Analysis.floorPlan a)) = Some 7
       /\ AnalysisMethods.incrementViews (mkDoc 0%N a a) Examples.miscomputed
          = (d', w', None)
       /\ analyses w' !! 0%N = Some a'
       /\ Dimensions.area (FloorPlan.dimensions (Analysis.floorPlan a')) = Some 200.
Proof.
  assert (reachable Examples.withVilla) as Hw by (by eexists).
  split; [done|].
  destruct areas_computed_by_hook as (Hplan0 & _ & H & Hsave).
  split.
  - eexists. split; [by vm_compute|].
    match goal with |- context [Analysis.floorPlan ?x] => set (a := x) end.
    destruct (H Examples.withVilla 0%N a Hw) as [Hplan Hrooms]; [by vm_compute|].
    split.
    + rewrite Hplan by (by vm_compute). by vm_compute.
    + intros r Hr. pose proof (Hrooms r Hr) as Hroom. simpl in Hroom.
      apply list_elem_of_singleton in Hr. subst r.
      rewrite Hroom by (by vm_compute). by vm_compute.
  - set (a := newAnalysis 1 Examples.villa).
    destruct (AnalysisMethods.incrementViews (mkDoc 0%N a a) Examples.miscomputed)
      as [[d' w'] r] eqn:E.
    assert (r = None) as -> by (vm_compute in E; by injection E).
    destruct (Hsave false _ _ _ _ E) as (a' & _ & Ha' & Hdims & _);
      [by vm_compute|].
    exists a, d', w', a'. split; [by vm_compute|]. split; [by vm_compute|].
    split; [done|]. split; [done|].
    rewrite Hdims, Hplan0. by vm_compute.
Defined.

End Areas.

(** ** Visibility, ownership and the counters *)

Section Access.
Import Db AnalysisMethods AnalysisRoutes Server.

Lemma incrementViews_result id a w :
  analyses w !! id = Some a ->
  incrementViews (mkDoc id a a) w
  = if refused w
    then (mkDoc id a (viewed a), answered w, Some MongoError)
    else (mkDoc id (viewed a) (viewed a),
          set_analyses (<[id := viewed a]> (analyses w)) (answered w), None).
Proof.
  intros Ha. unfold incrementViews, save, assign; simpl. fold (viewed a).
  case_decide as Hm.
  { apply (f_equal Analysis.views) in Hm. simpl in Hm. lia. }
  destruct (refused w); [done|]. by rewrite Ha, written_same.
Qed.

Lemma like_result id a w :
  analyses w !! id = Some a ->
  like (mkDoc id a a) w
  = if refused w
    then (mkDoc id a (liked a), answered w, Some MongoError)
    else (mkDoc id (liked a) (liked a),
          set_analyses (<[id := liked a]> (analyses w)) (answered w), None).
Proof.
  intros Ha. unfold like, save, assign; simpl. fold (liked a).
  case_decide as Hm.
  { apply (f_equal Analysis.likes) in Hm. simpl in Hm. lia. }
  destruct (refused w); [done|]. by rewrite Ha, written_same.
Qed.

Lemma share_result id a w :
  analyses w !! id = Some a ->
  share (mkDoc id a a) w
  = if refused w
    then (mkDoc id a (shared a), answered w, Some MongoError)
    else (mkDoc id (shared a) (shared a),
          set_analyses (<[id := shared a]> (analyses w)) (answered w), None).
Proof.
  intros Ha. unfold share, save, assign; simpl. fold (shared a).
  case_decide as Hm.
  { apply (f_equal Analysis.shares) in Hm. simpl in Hm. lia. }
  destruct (refused w); [done|]. by rewrite Ha, written_same.
Qed.

(** A read by a caller who is not the owner. *)
Lemma getById_not_owner c id a w :
  analyses w !! id = Some a ->
  notOwner a (Auth.optionalAuth c) = true ->
  getById c id w
  = if negb (Analysis.isPublic a) then (fail_with 403 "Access denied", w)
    else if refused w then (Thrown MongoError, answered w)
    else (ok_with 200 "" (AnalysisData (mkDoc id (viewed a) (viewed a))),
          set_analyses (<[id := viewed a]> (analyses w)) (answered w)).
Proof.
  intros Ha Hn. unfold getById, findById. rewrite Ha. simpl. rewrite Hn.
  destruct (Analysis.isPublic a); simpl; [|done].
  rewrite incrementViews_result by done. by destruct (refused w).
Qed.

(** C5, amended.  For a caller who is not the owner, authenticated or not:
    a read is answered 403 exactly when the analysis is not public; the
    read of a public analysis returns it when the database accepts the
    write of the view counter, and throws when it refuses.  Update, delete
    and start by an authenticated caller who is not the owner are answered
    403 and change nothing, whatever the visibility; without
    authentication they are answered 401 and change nothing. *)
Theorem reads_and_mutations_by_others (w : World) (id : ObjectId) (a : Analysis.t)
    (Ha : analyses w !! id = Some a) :
  (forall c,
      notOwner a (Auth.optionalAuth c) = true ->
      (getById c id w = (fail_with 403 "Access denied", w)
       <-> Analysis.isPublic a = false)
      /\ (Analysis.isPublic a = true -> refused w = false ->
          exists w', getById c id w
                     = (ok_with 200 "" (AnalysisData (mkDoc id (viewed a) (viewed a))), w'))
      /\ (Analysis.isPublic a = true -> refused w = true ->
          getById c id w = (Thrown MongoError, answered w)))
  /\ (forall c user,
        Auth.protect c = inr user -> otherUser a user = true ->
        (forall b, updateAnalysis c id b w = (fail_with 403 "Access denied", w))
        /\ deleteAnalysis c id w = (fail_with 403 "Access denied", w)
        /\ (forall now, exists msg, start c id now w = (fail_with 403 msg, w)))
  /\ (forall c r,
        Auth.protect c = inl r ->
        Auth.statusCode r = 401
        /\ (forall b, updateAnalysis c id b w = (deny r, w))
        /\ deleteAnalysis c id w = (deny r, w)
        /\ (forall now, start c id now w = (deny r, w))).
Proof.
  split; [|split].
  - intros c Hn. rewrite (getById_not_owner _ _ _ _ Ha Hn).
    destruct (Analysis.isPublic a); simpl.
    + split; [|split].
      * split; [|done]. destruct (refused w); intros [=].
      * intros _ ->. by eexists.
      * by intros _ ->.
    + done.
  - intros c user Hc Ho. repeat split.
    + intros b. unfold updateAnalysis, findById. by rewrite Hc, Ha; simpl; rewrite Ho.
    + unfold deleteAnalysis, findById. by rewrite Hc, Ha; simpl; rewrite Ho.
    + intros now. unfold start, startLookup, Auth.requirePremium, findById.
      rewrite Hc, Ha. simpl. rewrite Ho.
      destruct (negb (Auth.isPremium user)); by eexists.
  - intros c r Hc. repeat split.
    + revert Hc. unfold Auth.protect. repeat case_match; by intros [= <-].
    + intros b. unfold updateAnalysis. by rewrite Hc.
    + unfold deleteAnalysis. by rewrite Hc.
    + intros now. unfold start, startLookup. by rewrite Hc.
Qed.

(** C5, as stated, fails: an update of the public analysis 0 without a
    token is answered 401, not 403. *)
Lemma update_without_token_is_401 :
  (exists a, analyses Examples.published !! 0%N = Some a
             /\ notOwner a (Auth.optionalAuth Auth.NoToken) = true)
  /\ exists res,
       updateAnalysis Auth.NoToken 0%N Examples.retitle Examples.published
       = (Sent res, Examples.published)
       /\ statusCode res = 401 /\ statusCode res <> 403.
Proof.
  split; [eexists; split; by vm_compute|].
  eexists. split; [reflexivity|]. by split.
Qed.

(** C5, amended, at the public analysis of Alice: Bob may not delete it
    and may read it. *)
Lemma reads_and_mutations_by_others_witness :
  (exists a, analyses Examples.published !! 0%N = Some a)
  /\ deleteAnalysis Examples.asBob 0%N Examples.published
     = (fail_with 403 "Access denied", Examples.published)
  /\ (exists w', getById Examples.asBob 0%N Examples.published
                 = (ok_with 200 ""
                      (AnalysisData
                         (mkDoc 0%N (viewed (newAnalysis 1 Examples.publicHome))
                                (viewed (newAnalysis 1 Examples.publicHome)))), w')).
Proof.
  assert (analyses Examples.published !! 0%N
          = Some (newAnalysis 1 Examples.publicHome)) as Ha by (by vm_compute).
  split; [by eexists|].
  destruct (reads_and_mutations_by_others _ _ _ Ha) as (Hread & Hmut & _).
  split.
  - apply (Hmut Examples.asBob Examples.bob); by vm_compute.
  - apply (Hread Examples.asBob); by vm_compute.
Defined.

(** C6, amended.  A read by a caller who is not the owner, of an analysis
    the caller may read, adds exactly one to views, in the analysis
    returned and in the analysis stored; the save skips validation, so
    the analysis need not pass the validators; the read succeeds when the
    database accepts the write and throws when it refuses it.  A read by
    the owner leaves the counter as it is. *)
Theorem view_counted_once (w : World) (id : ObjectId) (a : Analysis.t)
    (Ha : analyses w !! id = Some a) :
  (forall c,
      notOwner a (Auth.optionalAuth c) = true -> Analysis.isPublic a = true ->
      Analysis.views (viewed a) = Analysis.views a + 1
      /\ (refused w = false ->
          getById c id w
          = (ok_with 200 "" (AnalysisData (mkDoc id (viewed a) (viewed a))),
             set_analyses (<[id := viewed a]> (analyses w)) (answered w)))
      /\ (refused w = true ->
          getById c id w = (Thrown MongoError, answered w)))
  /\ (forall c,
        notOwner a (Auth.optionalAuth c) = false ->
        getById c id w = (ok_with 200 "" (AnalysisData (mkDoc id a a)), w)).
Proof.
  split.
  - intros c Hn Hp. rewrite (getById_not_owner _ _ _ _ Ha Hn), Hp. simpl.
    split; [done|]. split; by intros ->.
  - intros c Hn. unfold getById, findById. rewrite Ha. simpl. rewrite Hn.
    by rewrite andb_false_r.
Qed.

(** C6, as stated, fails: the database refuses the write of the view
    counter, and the read of the public analysis 0 by an anonymous caller
    throws instead of returning the analysis. *)
Lemma refused_view_fails_the_read :
  getById Auth.NoToken 0%N (set_faults [true] Examples.published)
  = (Thrown MongoError, Examples.published)
  /\ (exists a, analyses Examples.published !! 0%N = Some a
                /\ Analysis.isPublic a = true).
Proof. split; [by vm_compute|]. eexists. split; by vm_compute. Qed.

(** C6, amended, at an analysis the validators refuse: the read by an
    anonymous caller still counts its view. *)
Lemma view_counted_once_witness :
  analyses Examples.tampered !! 0%N = Some Examples.untitled
  /\ Analysis.validate Examples.untitled = false
  /\ exists w',
       getById Auth.NoToken 0%N Examples.tampered
       = (ok_with 200 ""
            (AnalysisData (mkDoc 0%N (viewed Examples.untitled)
                                 (viewed Examples.untitled))), w')
       /\ Analysis.views <$> analyses w' !! 0%N = Some 1.
Proof.
  assert (analyses Examples.tampered !! 0%N = Some Examples.untitled) as Ha
      by (by vm_compute).
  split; [done|]. split; [by vm_compute|].
  destruct (view_counted_once _ _ _ Ha) as (Hread & _).
  destruct (Hread Auth.NoToken) as (_ & Hok & _); [by vm_compute..|].
  eexists. split; [apply Hok; by vm_compute|]. by vm_compute.
Defined.

End Access.

(** ** Requests that overlap, requests that follow one another *)

Section Overlap.
Import Db AnalysisMethods AnalysisRoutes Server.

Lemma start_200_processing c id now w res w' :
  start c id now w = (Sent res, w') -> statusCode res = 200 ->
  exists a', analyses w' !! id = Some a' /\ Analysis.status a' = "processing".
Proof.
  unfold start. intros E Hcode.
  destruct (startLookup c id w) as [o|d] eqn:El.
  { exfalso. injection E as -> <-. revert El.
    unfold startLookup, deny, fail_with, Auth.protect, Auth.requirePremium.
    intros El. repeat case_match; simplify_eq; simpl in Hcode; lia. }
  apply startLookup_inr in El as ((Hf & Hl & Hid)%findById_Some & Hp & _).
  unfold startProcessing in E. rewrite updateStatus_processing in E.
  match type of E with context [save true ?x w] => set (d2 := x) in * end.
  destruct (save true d2 w) as [[d' w1] [e|]] eqn:Es; [done|].
  injection E as _ <-.
  assert (Analysis.status (this d2) <> Analysis.status (loaded d2)) as Hdiff.
  { simpl. rewrite Hl, Hp. done. }
  destruct (save_assigned_statuses _ _ _ _ _ Es Hdiff) as (Hq & _).
  apply (f_equal (fun m => m !! id)) in Hq.
  change (_id d2) with (_id d) in Hq. rewrite Hid, lookup_insert_eq in Hq.
  rewrite statuses_lookup in Hq. simpl.
  destruct (analyses w1 !! id) as [a'|]; [|done].
  exists a'. split; [done|]. by injection Hq.
Qed.

Lemma run_cons e es w : run (e :: es) w = run es (snd (step e w)).
Proof. reflexivity. Qed.

Lemma inTurn_S n rq : inTurn (S n) rq = mkEvent 0 [] rq :: inTurn n rq.
Proof. reflexivity. Qed.

Lemma likes_in_turn c user id n : forall w a,
  Auth.protect c = inr user ->
  analyses w !! id = Some a -> Analysis.isPublic a = true ->
  likes_of id (run (inTurn n (Like c id)) w) = Some (Analysis.likes a + Z.of_nat n).
Proof.
  induction n as [|n IH]; intros w a Hc Ha Hp.
  { unfold likes_of. simpl. rewrite Ha. simpl. f_equal. lia. }
  rewrite inTurn_S, run_cons.
  assert (analyses (step (mkEvent 0 [] (Like c id)) w).2 !! id = Some (liked a))
    as Ha'.
  { unfold step; simpl.
    unfold likeAnalysis, likeLookup, findById, likeSave. simpl.
    rewrite Hc, Ha; simpl. rewrite Hp; simpl.
    rewrite like_result by done. simpl. apply lookup_insert_eq. }
  rewrite (IH _ _ Hc Ha' Hp). simpl. f_equal. lia.
Qed.

Lemma shares_in_turn c user id n : forall w a,
  Auth.protect c = inr user ->
  analyses w !! id = Some a -> Analysis.isPublic a = true ->
  shares_of id (run (inTurn n (Share c id)) w) = Some (Analysis.shares a + Z.of_nat n).
Proof.
  induction n as [|n IH]; intros w a Hc Ha Hp.
  { unfold shares_of. simpl. rewrite Ha. simpl. f_equal. lia. }
  rewrite inTurn_S, run_cons.
  assert (analyses (step (mkEvent 0 [] (Share c id)) w).2 !! id = Some (shared a))
    as Ha'.
  { unfold step; simpl.
    unfold shareAnalysis, shareLookup, findById, shareSave. simpl.
    rewrite Hc, Ha; simpl. rewrite Hp; simpl.
    rewrite share_result by done. simpl. apply lookup_insert_eq. }
  rewrite (IH _ _ Hc Ha' Hp). simpl. f_equal. lia.
Qed.

Lemma views_in_turn c id n : forall w a,
  analyses w !! id = Some a ->
  notOwner a (Auth.optionalAuth c) = true -> Analysis.isPublic a = true ->
  views_of id (run (inTurn n (GetById c id)) w) = Some (Analysis.views a + Z.of_nat n).
Proof.
  induction n as [|n IH]; intros w a Ha Hn Hp.
  { unfold views_of. simpl. rewrite Ha. simpl. f_equal. lia. }
  rewrite inTurn_S, run_cons.
  assert (analyses (step (mkEvent 0 [] (GetById c id)) w).2 !! id = Some (viewed a))
    as Ha'.
  { unfold step; simpl.
    rewrite (getById_not_owner c id a) by done. rewrite Hp. simpl.
    apply lookup_insert_eq. }
  rewrite (IH _ _ Ha' Hn Hp). simpl. f_equal. lia.
Qed.

(** C7, amended.  The check of the status and the transition are two steps
    of the start handler, a read and a write, and a counter is incremented
    by a read and a write.  When the requests are handled one after the
    other: once a start request on an analysis has been answered 200, every
    later start request on it is rejected and leaves the world, its timer
    queue included, as it is; and [n] like, share or non-owner read
    requests on a public analysis, each write accepted, add exactly [n] to
    likes, shares or views. *)
Theorem requests_in_turn :
  (forall w c id now res w',
      start c id now w = (Sent res, w') -> statusCode res = 200 ->
      forall c' now',
      exists res', start c' id now' w' = (Sent res', w') /\ success res' = false)
  /\ (forall w c user id a n,
        Auth.protect c = inr user ->
        analyses w !! id = Some a -> Analysis.isPublic a = true ->
        likes_of id (run (inTurn n (Like c id)) w)
        = Some (Analysis.likes a + Z.of_nat n)
        /\ shares_of id (run (inTurn n (Share c id)) w)
           = Some (Analysis.shares a + Z.of_nat n))
  /\ (forall w c id a n,
        analyses w !! id = Some a ->
        notOwner a (Auth.optionalAuth c) = true -> Analysis.isPublic a = true ->
        views_of id (run (inTurn n (GetById c id)) w)
        = Some (Analysis.views a + Z.of_nat n)).
Proof.
  split; [|split].
  - intros w c id now res w' E Hcode c' now'.
    destruct (start_200_processing _ _ _ _ _ _ E Hcode) as (a' & Ha' & Hs).
    eapply start_rejected_unless_pending; [done|]. by rewrite Hs.
  - intros w c user id a n Hc Ha Hp. split.
    + by eapply likes_in_turn.
    + by eapply shares_in_turn.
  - intros w c id a n Ha Hn Hp. by eapply views_in_turn.
Qed.

(** C7, as stated, fails.  Two start requests of Alice on the pending
    analysis 0 both read it before either writes: both are answered 200
    and two scoring runs wait in the timer queue.  Two like requests on the
    public analysis 0 both read it before either writes: both are
    answered 200 and likes has grown by one, not by two. *)
Lemma overlapping_requests_are_not_atomic :
  (exists dA dB resA resB w1 w2,
      startLookup Examples.asAlice 0%N Examples.created = inr dA
      /\ startLookup Examples.asAlice 0%N Examples.created = inr dB
      /\ startProcessing 1000 dA Examples.created = (Sent resA, w1)
      /\ startProcessing 1001 dB w1 = (Sent resB, w2)
      /\ statusCode resA = 200 /\ statusCode resB = 200
      /\ length (timers w2) = 2%nat)
  /\ (exists d1 d2 res1 res2 w1 w2,
        likeLookup Examples.asBob 0%N Examples.published = inr d1
        /\ likeLookup Examples.asAlice 0%N Examples.published = inr d2
        /\ likeSave d1 Examples.published = (Sent res1, w1)
        /\ likeSave d2 w1 = (Sent res2, w2)
        /\ statusCode res1 = 200 /\ statusCode res2 = 200
        /\ likes_of 0%N Examples.published = Some 0
        /\ likes_of 0%N w2 = Some 1).
Proof.
  split.
  - do 6 eexists. split; [by vm_compute|]. split; [by vm_compute|].
    split; [by vm_compute|]. split; [by vm_compute|]. by vm_compute.
  - do 6 eexists. split; [by vm_compute|]. split; [by vm_compute|].
    split; [by vm_compute|]. split; [by vm_compute|]. by vm_compute.
Qed.

(** C7, amended: a second start after the first is rejected; fifty likes
    in turn add fifty, three anonymous reads add three views. *)
Lemma requests_in_turn_witness :
  (exists res, start Examples.asAlice 0%N 1000 Examples.created
               = (Sent res, Examples.started) /\ statusCode res = 200)
  /\ (exists res', start Examples.asAlice 0%N 1001 Examples.started
                   = (Sent res', Examples.started) /\ success res' = false)
  /\ likes_of 0%N (run (inTurn 50 (Like Examples.asBob 0%N)) Examples.published)
     = Some 50
  /\ views_of 0%N (run (inTurn 3 (GetById Auth.NoToken 0%N)) Examples.published)
     = Some 3.
Proof.
  destruct requests_in_turn as (Hstart & Hcount & Hviews).
  assert (exists res, start Examples.asAlice 0%N 1000 Examples.created
                      = (Sent res, Examples.started) /\ statusCode res = 200)
    as (res & E & Hcode) by (eexists; split; by vm_compute).
  split; [by exists res|]. split; [by eapply Hstart|]. split.
  - destruct (Hcount Examples.published Examples.asBob Examples.bob 0%N
                (newAnalysis 1 Examples.publicHome) 50%nat) as [H _];
      [by vm_compute..|]. exact H.
  - apply (Hviews Examples.published Auth.NoToken 0%N
             (newAnalysis 1 Examples.publicHome) 3%nat); by vm_compute.
Defined.

End Overlap.

(** ** Uploads *)

Section Uploads.
Import Db AnalysisRoutes UploadRoutes.

Lemma uploadEach_result files : forall acc w,
  exists w',
    uploadEach files acc w
    = (w', (acc ++ uploadedBefore files)%list,
       if allAnswered files then None else Some uploadFailed)
    /\ analyses w' = analyses w /\ nextId w' = nextId w.
Proof.
  induction files as [|f fs IH]; intros acc w; simpl.
  - exists w. by rewrite app_nil_r.
  - unfold uploadToCloudinary. destruct (answer f) as [result|] eqn:Ef; simpl.
    + destruct (IH (acc ++ [fileEntry f result])%list
                  (set_cloudinary ({[public_id result]} ∪ cloudinary w) w))
        as (w' & -> & ? & ?).
      exists w'. rewrite <- app_assoc. done.
    + eexists. rewrite app_nil_r. split; [reflexivity|done].
Qed.

Lemma cleanup_subset up : forall ds w,
  cloudinary (cleanup up ds w) ⊆ cloudinary w.
Proof.
  induction up as [|f fs IH]; intros ds w; simpl; [done|].
  destruct ds as [|[] ds]; simpl.
  - etrans; [apply IH|]. simpl. apply subseteq_difference_l. done.
  - etrans; [apply IH|]. done.
  - etrans; [apply IH|]. simpl. apply subseteq_difference_l. done.
Qed.

(** A file whose destroy call does not throw is gone from the blob store. *)
Lemma cleanup_removes up : forall ds w i f,
  up !! i = Some f -> ds !! i <> Some true ->
  File.filename f ∉ cloudinary (cleanup up ds w).
Proof.
  induction up as [|g gs IH]; intros ds w i f Hi Hd; [done|].
  destruct i as [|i]; simpl in Hi.
  - injection Hi as ->. simpl.
    destruct ds as [|[] ds]; simpl in *; [|done|].
    all: intros Hin%cleanup_subset; simpl in Hin;
      apply elem_of_difference in Hin as [_ Hin]; apply Hin;
      by apply elem_of_singleton.
  - simpl. destruct ds as [|[] ds]; simpl in *.
    + apply (IH [] _ i f Hi). done.
    + by apply (IH ds _ i f Hi).
    + by apply (IH ds _ i f Hi).
Qed.

Lemma cleanup_frame up ds w :
  analyses (cleanup up ds w) = analyses w /\ nextId (cleanup up ds w) = nextId w.
Proof. destruct (cleanup_sameDb up ds w) as (? & ? & _). done. Qed.

Lemma allAnswered_false files :
  allAnswered files = false <-> exists file, file ∈ files /\ answer file = None.
Proof.
  unfold allAnswered. induction files as [|f fs IH]; simpl.
  - split; [done|]. intros (? & H & _). by apply elem_of_nil in H.
  - rewrite andb_false_iff, IH. split.
    + intros [H|(x & ? & ?)].
      * exists f. split; [by left|]. apply bool_decide_eq_false in H.
        destruct (answer f); [|done]. exfalso. apply H. by eexists.
      * exists x. split; [by right|done].
    + intros (x & [->|Hx]%elem_of_cons & Hn).
      * left. apply bool_decide_eq_false. rewrite Hn. by intros [? ?].
      * right. by exists x.
Qed.

(** The analysis the upload route builds carries no orientation, which
    the schema requires: its creation is refused by the validators, and
    the route never answers 201. *)
Lemma upload_analysis_is_refused user req uploadedFiles :
  Analysis.validate (newAnalysis user req uploadedFiles) = false.
Proof.
  unfold Analysis.validate, newAnalysis, Analysis.validFloorPlan; simpl.
  by rewrite !andb_false_r.
Qed.

(** C8.  For an upload of a batch of files by an authenticated caller: when
    the upload of one of the files fails, the request throws 'File upload
    failed'; whenever the request does not end in the 201 response (an
    upload failed, or the creation of the analysis did), it throws, no
    analysis has been created, and every file already uploaded has been
    asked to be destroyed: each one whose destroy call did not throw is
    gone from the blob store. *)
Theorem upload_failure_cleans_up (c : Auth.Credentials) (user : Auth.User)
    (req : Request) (w : World)
    (Hc : Auth.protect c = inr user)
    (Hv : validateFileUpload req = true)
    (Hf : files req <> []) :
  ((exists file, file ∈ files req /\ answer file = None) ->
   exists w', uploadFiles c req w = (Thrown uploadFailed, w') /\ cleanedUp req w w')
  /\ (forall o w',
        uploadFiles c req w = (o, w') ->
        (exists res, o = Sent res /\ statusCode res = 201
                     /\ allAnswered (files req) = true)
        \/ (exists e, o = Thrown e /\ cleanedUp req w w')).
Proof.
  unfold uploadFiles. rewrite Hc, Hv. simpl.
  rewrite bool_decide_eq_false_2 by done.
  destruct (uploadEach_result (files req) [] w) as (w1 & -> & Ha1 & Hn1).
  simpl.
  assert (forall w2, analyses w2 = analyses w -> nextId w2 = nextId w ->
            cleanedUp req w (cleanup (uploadedBefore (files req)) (destroys req) w2))
    as Hclean.
  { intros w2 Ha2 Hn2.
    destruct (cleanup_frame (uploadedBefore (files req)) (destroys req) w2)
      as [Ha3 Hn3].
    split; [congruence|]. split; [congruence|].
    intros i f. apply cleanup_removes. }
  split.
  - intros Hex%allAnswered_false. rewrite Hex. eexists. split; [done|]. auto.
  - intros o w'. destruct (allAnswered (files req)) eqn:Eall.
    + unfold create.
      destruct (negb (Analysis.validate _)).
      { intros [= <- <-]. right. eexists. split; [done|]. auto. }
      destruct (refused w1).
      { intros [= <- <-]. right. eexists. split; [done|]. auto. }
      intros [= <- <-]. left. by eexists.
    + intros [= <- <-]. right. eexists. split; [done|]. auto.
Qed.

(** C8 at scenario D: the second upload fails, the first file is gone
    from the blob store and the collection is as it was. *)
Lemma upload_failure_cleans_up_witness :
  exists w',
    uploadFiles Examples.asAlice Examples.twoFiles Server.initial
    = (Thrown uploadFailed, w')
    /\ analyses w' = analyses Server.initial
    /\ "vastu-vision/users/1/ground" ∉ cloudinary w'.
Proof.
  destruct (upload_failure_cleans_up Examples.asAlice Examples.alice Examples.twoFiles
              Server.initial) as [H _]; [by vm_compute..|].
  destruct H as (w' & E & Ha & _ & Hgone).
  { exists (mkFile "first.png" "image/png" None).
    split; [|reflexivity]. apply elem_of_cons. right. by left. }
  exists w'. split; [done|]. split; [done|].
  by apply (Hgone 0%nat (File.mk "vastu-vision/users/1/ground" "ground.png"
                           "https://cdn/ground.jpg" (Some 2048) "image/png")).
Defined.

End Uploads.

(** ** Registration *)

Section Registration.
Import AuthRoutes.
Variable sha256 : string -> string.

(** C9.  A registration for which no account with the email or the phone
    exists, the database accepting the two writes, is answered 201 with
    success, and the user is in the collection afterwards, whether the
    verification mail is sent or the transport throws; when it throws, the
    failure is logged and no mail leaves. *)
Theorem registration_survives_mail_failure
    (b : Body) (token : string) (now : Date) (host : string) (w : World)
    (Hnew : findOne (b_email b) (b_phone b) w = None)
    (Hdb : accepts 2 w = true) :
  let user := registeredUser sha256 b token now w in
  exists w',
    register sha256 b token now host w = (Sent (registered user), w')
    /\ user ∈ users w'
    /\ statusCode (registered user) = 201
    /\ success (registered user) = true
    /\ match transport w with
       | true :: _ =>
           outbox w' = outbox w
           /\ console w'
              = (console w ++ ["Email sending failed:"; "Email sending failed:"])%list
       | _ => exists mail, outbox w' = (outbox w ++ [mail])%list /\ to mail = b_email b
       end.
Proof.
  intros user. unfold register. rewrite Hnew.
  assert (refused w = false /\ refused (answered w) = false) as [Hr1 Hr2].
  { unfold accepts, refused in *. simpl.
    destruct (faults w) as [|[] [|[] fs]]; simpl in *; done. }
  unfold create. rewrite Hr1.
  unfold save. unfold refused in *. simpl in *. rewrite Hr2. simpl.
  fold user.
  assert (user ∈ map (fun u => if bool_decide (_id u = nextId w) then user else u)
                     (users w ++ [mkUser (nextId w) (b_firstName b) (b_lastName b)
                                    (b_email b) (b_phone b) (b_gender b)
                                    (b_dateOfBirth b) (b_password b) None None
                                    false])%list) as Hin.
  { rewrite map_app. apply elem_of_app. right. simpl.
    rewrite bool_decide_eq_true_2 by done. by left. }
  unfold sendEmail; simpl.
  destruct (transport w) as [|[] ts]; simpl.
  - eexists. split; [reflexivity|]. simpl. repeat split; try done. by eexists.
  - eexists. split; [reflexivity|]. simpl. repeat split; try done.
    by rewrite <- app_assoc.
  - eexists. split; [reflexivity|]. simpl. repeat split; try done. by eexists.
Qed.

End Registration.

Section RegistrationWitness.
Import AuthRoutes.

(** C9 at a registration into an empty collection while the mail
    transport throws. *)
Lemma registration_survives_mail_failure_witness :
  let user := registeredUser Examples.digest Examples.newcomer "c0ffee" 0
                             Examples.mailDown in
  exists w',
    register Examples.digest Examples.newcomer "c0ffee" 0 "http://localhost:5000"
             Examples.mailDown
    = (Sent (registered user), w')
    /\ user ∈ users w'
    /\ outbox w' = [].
Proof.
  destruct (registration_survives_mail_failure Examples.digest Examples.newcomer
              "c0ffee" 0 "http://localhost:5000" Examples.mailDown)
    as (w' & E & Hin & _ & _ & Hout & _); [by vm_compute..|].
  exists w'. by repeat split.
Defined.

End RegistrationWitness.

(** ** Vastu rules *)

Section Rules.
Import VastuRoutes.
Variable regexTest : string -> string -> bool.

Lemma insertSorted_elem {A} (before : A -> A -> bool) x y l :
  x ∈ VastuRule.insertSorted before y l <-> x = y \/ x ∈ l.
Proof.
  induction l as [|z l IH]; simpl.
  - rewrite list_elem_of_singleton. split; [auto|]. intros [?|H]; [done|].
    by apply elem_of_nil in H.
  - destruct (before y z).
    + by rewrite elem_of_cons.
    + rewrite !elem_of_cons, IH. tauto.
Qed.

Lemma sortBy_elem {A} (before : A -> A -> bool) x l :
  x ∈ VastuRule.sortBy before l <-> x ∈ l.
Proof.
  unfold VastuRule.sortBy. induction l as [|y l IH]; simpl; [done|].
  by rewrite insertSorted_elem, IH, elem_of_cons.
Qed.

Lemma find_elem query order rules id rule :
  (id, rule) ∈ VastuRule.find query order rules
  <-> rules !! id = Some rule /\ query rule = true.
Proof.
  unfold VastuRule.find. rewrite sortBy_elem.
  rewrite list_elem_of_In, filter_In, <- list_elem_of_In.
  by rewrite elem_of_map_to_list.
Qed.

Lemma validate_deactivated rule :
  VastuRule.validate (VastuRule.set_isActive false rule) = VastuRule.validate rule.
Proof. reflexivity. Qed.

(** C10.  The delete request of an admin on a stored, valid rule, the
    database accepting the write, is answered 200 and keeps the record:
    the rule stays in the collection, inactive, every other path as it was
    but for the version, which a rule that was active moves on by one; no
    other rule changes.  A rule that is inactive is not found by the
    get-by-id and the remedies requests, and the list, search, category and
    critical requests return only rules of the collection that are
    active. *)
Theorem delete_deactivates_rule :
  (forall w c user id rule,
      Auth.protect c = inr user -> Auth.role user = "admin" ->
      rules w !! id = Some rule ->
      VastuRule.validate rule = true ->
      head (faults w) <> Some true ->
      exists w',
        deleteRule c id w
        = (Sent (mkResponse 200 true "Vastu rule deactivated successfully" NoData),
           w')
        /\ rules w'
           = <[id := if VastuRule.isActive rule then deactivated rule else rule]>
               (rules w)
        /\ (exists rule', rules w' !! id = Some rule'
                          /\ VastuRule.isActive rule' = false))
  /\ (forall w id rule,
        rules w !! id = Some rule -> VastuRule.isActive rule = false ->
        getRule id w = notFound
        /\ forall budget difficulty, getRemedies id budget difficulty w = notFound)
  /\ (forall w id rule,
        ((exists page lim f, (id, rule) ∈ returned (listRules page lim f w))
         \/ (exists q f, (id, rule) ∈ returned (search regexTest q f w))
         \/ (exists cat d r e, (id, rule) ∈ returned (byCategory cat d r e w))
         \/ (id, rule) ∈ returned (critical w)) ->
        rules w !! id = Some rule /\ VastuRule.isActive rule = true).
Proof.
  split; [|split].
  - intros w c user id rule Hc Hrole Hr Hv Hf.
    unfold deleteRule, authorize, save. rewrite Hc, Hrole, Hr. simpl.
    rewrite validate_deactivated, Hv. simpl.
    destruct (VastuRule.isActive rule) eqn:Ha.
    + assert (VastuRule.set_isActive false rule <> rule) as Hne.
      { intros E. apply (f_equal VastuRule.isActive) in E. simpl in E.
        congruence. }
      rewrite (bool_decide_eq_false_2 _ Hne). simpl. fold (deactivated rule).
      rewrite bool_decide_eq_false_2.
      2:{ intros E. apply (f_equal VastuRule.isActive) in E. simpl in E.
          congruence. }
      destruct (faults w) as [|[] fs]; simpl in *; try done.
      all: eexists; split; [reflexivity|]; split; [done|]; simpl;
        rewrite lookup_insert_eq; by eexists.
    + assert (VastuRule.set_isActive false rule = rule) as He.
      { destruct rule; simpl in *. by subst. }
      rewrite He, (bool_decide_eq_true_2 _ eq_refl). simpl.
      rewrite (bool_decide_eq_true_2 _ eq_refl).
      eexists. split; [reflexivity|]. rewrite insert_id by done.
      split; [done|]. by exists rule.
  - intros w id rule Hr Ha. split.
    + unfold getRule. by rewrite Hr, Ha.
    + intros. unfold getRemedies. by rewrite Hr, Ha.
  - intros w id rule [(page & lim & f & H)|[(q & f & H)|[(cat & d & r & e & H)|H]]].
    + unfold listRules in H. simpl in H.
      apply subseteq_take, subseteq_drop in H.
      apply find_elem in H as [? (? & _)%andb_true_iff]. done.
    + unfold search in H. destruct q as [term|]; simpl in H;
        [|by apply elem_of_nil in H].
      case_bool_decide; simpl in H; [by apply elem_of_nil in H|].
      unfold VastuRule.searchRules in H. apply find_elem in H as [? Hq].
      rewrite !andb_true_iff in Hq. by destruct_and!.
    + unfold byCategory in H. simpl in H.
      unfold VastuRule.getByCategory in H. apply find_elem in H as [? Hq].
      rewrite !andb_true_iff in Hq. by destruct_and!.
    + unfold critical in H. simpl in H.
      unfold VastuRule.getCriticalRules in H. apply find_elem in H as [? Hq].
      rewrite !andb_true_iff in Hq. by destruct_and!.
Qed.

End Rules.

Section RulesWitness.
Import VastuRoutes.

(** C10 at a catalog of one rule: after its deletion by an admin the rule
    is stored inactive and no read returns it. *)
Lemma delete_deactivates_rule_witness :
  exists w',
    deleteRule (Auth.Token (Some Examples.admin)) 7%N Examples.catalog
    = (Sent (mkResponse 200 true "Vastu rule deactivated successfully" NoData), w')
    /\ rules w' !! 7%N = Some (deactivated Examples.mainDoor)
    /\ getRule 7%N w' = notFound
    /\ returned (critical w') = [].
Proof.
  destruct (delete_deactivates_rule (fun _ _ => false)) as (Hdel & Hread & _).
  destruct (Hdel Examples.catalog (Auth.Token (Some Examples.admin))
              Examples.admin 7%N Examples.mainDoor)
    as (w' & E & Hrules & _); [by vm_compute..|].
  exists w'. split; [done|].
  assert (rules w' !! 7%N = Some (deactivated Examples.mainDoor)) as Hr.
  { rewrite Hrules. simpl. apply lookup_insert_eq. }
  split; [done|]. split.
  - eapply Hread; [exact Hr | done].
  - unfold critical, returned; simpl. rewrite Hrules. by vm_compute.
Defined.

End RulesWitness.
